(** * Dev Command Center: the Hono worker's status merge, webhook
      normalisation and notification relay, and the dashboard's staleness
      badge.

  Shallow embedding of [src/worker/index.ts] and of [derivedUnityBadge]
  in [src/react-app/App.tsx].

  Conventions of the embedding.
  - A JavaScript string is a [string] holding its UTF-8 bytes, exactly
    as the bytes stand in the source file.
  - A JSON number that the worker only copies ([totalTodayHours], ...)
    is a rational [Q]: JSON carries finite numbers only.
  - A millisecond time value ([Date.now()], [getTime()]) is a [Z]; a
    JavaScript number that may be [NaN] is an [option Z].
  - An optional property ([x?: T]) is an [option T]; [a ?? b] is
    [Js.nullish].
  - The clock, the random generator and the outbound network are the
    [Ambient] a request runs in; the key-value namespaces and the
    process-wide cache are the [World] it runs on. *)

From Stdlib Require Import ZArith QArith String Ascii List Lia.
From stdpp Require Import base option strings list gmap pretty.

Local Open Scope string_scope.
Local Open Scope Z_scope.

(** ** JavaScript operators used by the sources *)

Module Js.

(** [a ?? b]. *)
Definition nullish {A : Type} (a : option A) (b : A) : A :=
  match a with
  | Some v => v
  | None => b
  end.

(** [a ?? b] where [b] may itself be undefined (a chain [a ?? b ?? c]). *)
Definition nullish_opt {A : Type} (a b : option A) : option A :=
  match a with
  | Some v => Some v
  | None => b
  end.

(** Truthiness of an optional string: [undefined], [null] and the empty
    string are falsy. *)
Definition truthy (s : option string) : bool :=
  match s with
  | Some EmptyString => false
  | Some (String _ _) => true
  | None => false
  end.

(** [s.slice(b)] for [0 <= b]. *)
Fixpoint drop (b : nat) (s : string) : string :=
  match b, s with
  | O, _ => s
  | S b', EmptyString => EmptyString
  | S b', String _ s' => drop b' s'
  end.

(** [s.slice(b, e)] for constants [0 <= b <= e]. *)
Definition slice (b e : nat) (s : string) : string :=
  String.substring b (e - b) s.

(** [pat] stands at the start of [s]. *)
Fixpoint starts_with (pat s : string) : bool :=
  match pat with
  | EmptyString => true
  | String a pat' =>
      match s with
      | EmptyString => false
      | String b s' => Ascii.eqb a b && starts_with pat' s'
      end
  end.

(** [s.replace(pat, rep)] with a string pattern: the first occurrence of
    [pat] is replaced, the rest of [s] is kept.  ([rep] is taken
    literally; the source only replaces by the empty string.) *)
Fixpoint replace (pat rep s : string) : string :=
  if starts_with pat s then rep +:+ drop (String.length pat) s
  else match s with
       | EmptyString => EmptyString
       | String c s' => String c (replace pat rep s')
       end.

(** [arr.slice(0, n)]. *)
Definition array_slice0 {A : Type} (n : nat) (arr : list A) : list A :=
  firstn n arr.

End Js.

(** ** More of JavaScript's strings, to say what [replace] does *)

Module JsString.

(** [s.indexOf(pat)]: the first place at which [pat] stands in [s];
    [None] is -1. *)
Fixpoint indexOf (pat s : string) : option nat :=
  if Js.starts_with pat s then Some O
  else match s with
       | EmptyString => None
       | String _ s' =>
           match indexOf pat s' with
           | Some i => Some (S i)
           | None => None
           end
       end.

(** [s.slice(0, n)]. *)
Fixpoint take (n : nat) (s : string) : string :=
  match n, s with
  | O, _ => EmptyString
  | S n', EmptyString => EmptyString
  | S n', String c s' => String c (take n' s')
  end.

(** [s] with the [len] characters from place [i] on replaced by [rep]:
    [s.slice(0, i) + rep + s.slice(i + len)]. *)
Definition splice (i len : nat) (rep s : string) : string :=
  take i s +:+ rep +:+ Js.drop (i + len) s.

End JsString.

(** ** Date strings

  [lastUpdated], [timestamp] and [committedAt] are strings that the
  sources only produce with [toISOString()] and only read with
  [new Date(s).getTime()].  Such a string is kept as what that reading
  yields: a time value, or nothing for a string that is not a date. *)

Inductive DateString : Type :=
| Iso (ms : Z)              (* parses to the time value [ms] *)
| NotADate (raw : string).  (* [new Date(raw).getTime()] is [NaN] *)

(** [new Date(s).getTime()]: [None] is [NaN]. *)
Definition getTime (s : DateString) : option Z :=
match s with
| Iso ms => Some ms
| NotADate _ => None
end.

(** [new Date(ms).toISOString()]. *)
Definition toISOString (ms : Z) : DateString := Iso ms.

(** [a] is a strictly later instant than [b]. *)
Definition laterb (a b : DateString) : bool :=
match getTime a, getTime b with
| Some x, Some y => y <? x
| _, _ => false
end.

(** ** The worker: [src/worker/index.ts] *)

Module Worker.

Definition UNITY_STATUS_KEY : string := "unity-status".
Definition LATEST_COMMIT_KEY : string := "latest-commit".

Definition allowedUnityStates : list string := ["working"; "break"; "offline"].

(** [allowedUnityStateSet.has(s)]. *)
Definition allowedUnityStateSet_has (s : string) : bool :=
  existsb (String.eqb s) allowedUnityStates.

Module UnityActivity.
Record t : Type := mk {
  id : string;
  state : string;
  label : string;
  timestamp : DateString;
}.
End UnityActivity.

(** The object a [UnityStatus] is at run time.  [isHeartbeat] is no
    member of the declared type: it is the own property that the spread
    [...update] (or [...previous]) leaves on the merged object. *)
Module UnityStatus.
Record t : Type := mk {
  state : string;
  currentTask : string;
  activityType : string;
  sceneName : string;
  unityVersion : string;
  isPlayMode : bool;
  totalTodayHours : Q;
  totalWeekHours : Q;
  productiveStreak : Q;
  lastUpdated : DateString;
  history : list UnityActivity.t;
  isHeartbeat : option bool;
}.
End UnityStatus.

Module UnityStatusUpdate.
Record t : Type := mk {
  state : string;
  currentTask : option string;
  activityType : option string;
  sceneName : option string;
  unityVersion : option string;
  isPlayMode : option bool;
  totalTodayHours : option Q;
  totalWeekHours : option Q;
  productiveStreak : option Q;
  isHeartbeat : option bool;
}.
End UnityStatusUpdate.

Module LatestCommit.
Record t : Type := mk {
  id : string;
  message : string;
  author : string;
  url : string;
  repository : string;
  committedAt : DateString;
  branch : option string;
}.
End LatestCommit.

Module Repository.
Record t : Type := mk {
  full_name : option string;
  html_url : option string;
}.
End Repository.

Module Author.
Record t : Type := mk { name : option string }.
End Author.

Module HeadCommit.
Record t : Type := mk {
  id : option string;
  message : option string;
  timestamp : option DateString;
  url : option string;
  author : option Author.t;
}.
End HeadCommit.

Module GitHubWebhookPayload.
Record t : Type := mk {
  ref : option string;
  repository : option Repository.t;
  head_commit : option HeadCommit.t;
}.
End GitHubWebhookPayload.

(** [metadata] is only passed through and is left out. *)
Module NotificationBody.
Record t : Type := mk {
  channel : option string;
  title : option string;
  message : option string;
}.
End NotificationBody.

Definition defaultUnityStatus : UnityStatus.t :=
  {| UnityStatus.state := "offline";
     UnityStatus.currentTask := "Awaiting editor activity";
     UnityStatus.activityType := "Idle";
     UnityStatus.sceneName := "-";
     UnityStatus.unityVersion := "2022.3 LTS";
     UnityStatus.isPlayMode := false;
     UnityStatus.totalTodayHours := 0%Q;
     UnityStatus.totalWeekHours := 0%Q;
     UnityStatus.productiveStreak := 0%Q;
     UnityStatus.lastUpdated := toISOString 0;
     UnityStatus.history := [];
     UnityStatus.isHeartbeat := None |}.

(** What a request reads from outside the program. *)
Inductive FetchResult : Type :=
| Responded (ok : bool)   (* a response arrived; [response.ok] *)
| Rejected.               (* the promise of [fetch] rejects *)

Record Ambient : Type := {
  new_Date : Z;                   (* the time value of [new Date()] *)
  Date_now : Z;                   (* [Date.now()] *)
  Math_random_hex : string;       (* [Math.random().toString(16)] *)
  fetch : string -> FetchResult;  (* what a POST to the URL ends in *)
}.

(** The separator of the history label, byte for byte as line 183 of
    the source has it between the two interpolations: a space, the code
    points U+00E2 U+20AC U+201D, a space. *)
Definition label_separator : string := " â€” ".

(** [next.history = h]. *)
Definition set_history (next : UnityStatus.t) (h : list UnityActivity.t) : UnityStatus.t :=
  {| UnityStatus.state := UnityStatus.state next;
     UnityStatus.currentTask := UnityStatus.currentTask next;
     UnityStatus.activityType := UnityStatus.activityType next;
     UnityStatus.sceneName := UnityStatus.sceneName next;
     UnityStatus.unityVersion := UnityStatus.unityVersion next;
     UnityStatus.isPlayMode := UnityStatus.isPlayMode next;
     UnityStatus.totalTodayHours := UnityStatus.totalTodayHours next;
     UnityStatus.totalWeekHours := UnityStatus.totalWeekHours next;
     UnityStatus.productiveStreak := UnityStatus.productiveStreak next;
     UnityStatus.lastUpdated := UnityStatus.lastUpdated next;
     UnityStatus.history := h;
     UnityStatus.isHeartbeat := UnityStatus.isHeartbeat next |}.

(** The entry an event update prepends, built from the merged record. *)
Definition historyEntry (amb : Ambient) (now : DateString) (next : UnityStatus.t)
    : UnityActivity.t :=
  {| UnityActivity.id :=
       pretty (Date_now amb) +:+ "-" +:+ Js.slice 2 8 (Math_random_hex amb);
     UnityActivity.state := UnityStatus.state next;
     UnityActivity.label :=
       UnityStatus.activityType next +:+ label_separator +:+ UnityStatus.currentTask next;
     UnityActivity.timestamp := now |}.

Definition mergeUnityStatus (amb : Ambient) (previous : UnityStatus.t)
    (update : UnityStatusUpdate.t) : UnityStatus.t :=
  let now := toISOString (new_Date amb) in
  let isHeartbeat := Js.nullish (UnityStatusUpdate.isHeartbeat update) false in
  let next :=
    (* [...previous, ...update], then the listed properties *)
    {| UnityStatus.state := UnityStatusUpdate.state update;
       UnityStatus.currentTask :=
         Js.nullish (UnityStatusUpdate.currentTask update) (UnityStatus.currentTask previous);
       UnityStatus.activityType :=
         Js.nullish (UnityStatusUpdate.activityType update) (UnityStatus.activityType previous);
       UnityStatus.sceneName :=
         Js.nullish (UnityStatusUpdate.sceneName update) (UnityStatus.sceneName previous);
       UnityStatus.unityVersion :=
         Js.nullish (UnityStatusUpdate.unityVersion update) (UnityStatus.unityVersion previous);
       UnityStatus.isPlayMode :=
         Js.nullish (UnityStatusUpdate.isPlayMode update) (UnityStatus.isPlayMode previous);
       UnityStatus.totalTodayHours :=
         Js.nullish (UnityStatusUpdate.totalTodayHours update)
                    (UnityStatus.totalTodayHours previous);
       UnityStatus.totalWeekHours :=
         Js.nullish (UnityStatusUpdate.totalWeekHours update)
                    (UnityStatus.totalWeekHours previous);
       UnityStatus.productiveStreak :=
         Js.nullish (UnityStatusUpdate.productiveStreak update)
                    (UnityStatus.productiveStreak previous);
       UnityStatus.lastUpdated := now;
       UnityStatus.history := UnityStatus.history previous;
       UnityStatus.isHeartbeat :=
         Js.nullish_opt (UnityStatusUpdate.isHeartbeat update)
                        (UnityStatus.isHeartbeat previous) |} in
  if negb isHeartbeat then
    set_history next
      (Js.array_slice0 10 (historyEntry amb now next :: UnityStatus.history previous))
  else
    set_history next (UnityStatus.history previous).

(** *** The store: key-value namespaces and the process-wide cache *)

(** A JSON document held under a key.  [JSON.parse (JSON.stringify v)]
    gives [v] back on these records, so a namespace holds the record. *)
Inductive Stored : Type :=
| StoredUnityStatus (u : UnityStatus.t)
| StoredLatestCommit (c : LatestCommit.t).

Record StoredState : Type := {
  unityStatus : option UnityStatus.t;
  latestCommit : option LatestCommit.t;
}.

Record Env : Type := {
  UNITY_STATUS_KV : option (gmap string Stored);
  COMMIT_CACHE_KV : option (gmap string Stored);
  N8N_WEBHOOK_URL : option string;
}.

Record OutboundRequest : Type := {
  request_url : string;
  request_method : string;
  request_content_type : string;
  request_body : NotificationBody.t;
}.

Record World : Type := {
  env : Env;
  DEV_PORTAL_CACHE : option StoredState;   (* [globalThis.__DEV_PORTAL_CACHE__] *)
  outbound : list OutboundRequest;         (* the calls of [fetch], newest first *)
}.

Inductive Thrown : Type :=
| HTTPException (status : Z) (message : string)
| FetchRejection.

Inductive Completion (A : Type) : Type :=
| Returned (a : A)
| Threw (e : Thrown).

Arguments Returned {A} a.
Arguments Threw {A} e.

(** A handler step: it changes the world and returns or throws. *)
Definition Run (A : Type) : Type := World -> World * Completion A.

Definition ret {A : Type} (a : A) : Run A := fun w => (w, Returned a).

Definition throw {A : Type} (e : Thrown) : Run A := fun w => (w, Threw e).

Definition bind {A B : Type} (m : Run A) (k : A -> Run B) : Run B :=
  fun w =>
    match m w with
    | (w', Returned a) => k a w'
    | (w', Threw e) => (w', Threw e)
    end.

Notation "x <- m ;; k" := (bind m (fun x => k))
  (at level 100, m at next level, right associativity).

Definition set_UNITY_STATUS_KV (kv : gmap string Stored) : Run unit :=
  fun w =>
    ({| env := {| UNITY_STATUS_KV := Some kv;
                  COMMIT_CACHE_KV := COMMIT_CACHE_KV (env w);
                  N8N_WEBHOOK_URL := N8N_WEBHOOK_URL (env w) |};
        DEV_PORTAL_CACHE := DEV_PORTAL_CACHE w;
        outbound := outbound w |}, Returned tt).

Definition set_COMMIT_CACHE_KV (kv : gmap string Stored) : Run unit :=
  fun w =>
    ({| env := {| UNITY_STATUS_KV := UNITY_STATUS_KV (env w);
                  COMMIT_CACHE_KV := Some kv;
                  N8N_WEBHOOK_URL := N8N_WEBHOOK_URL (env w) |};
        DEV_PORTAL_CACHE := DEV_PORTAL_CACHE w;
        outbound := outbound w |}, Returned tt).

Definition set_cache (cache : StoredState) : Run unit :=
  fun w =>
    ({| env := env w;
        DEV_PORTAL_CACHE := Some cache;
        outbound := outbound w |}, Returned tt).

(** [globalState.__DEV_PORTAL_CACHE__ ??= {}]. *)
Definition the_cache : Run StoredState :=
  fun w =>
    match DEV_PORTAL_CACHE w with
    | Some cache => (w, Returned cache)
    | None =>
        let cache := {| unityStatus := None; latestCommit := None |} in
        ({| env := env w; DEV_PORTAL_CACHE := Some cache; outbound := outbound w |},
         Returned cache)
    end.

(** [binding && key === KEY]: the namespace when both hold. *)
Definition bound_for (binding : option (gmap string Stored)) (key KEY : string)
    : option (gmap string Stored) :=
  if String.eqb key KEY then binding else None.

Definition readFromKV (key : string) : Run (option Stored) :=
  fun w =>
    match bound_for (UNITY_STATUS_KV (env w)) key UNITY_STATUS_KEY with
    | Some kv => ret (kv !! key) w
    | None =>
    match bound_for (COMMIT_CACHE_KV (env w)) key LATEST_COMMIT_KEY with
    | Some kv => ret (kv !! key) w
    | None =>
        (cache <- the_cache ;;
         if String.eqb key UNITY_STATUS_KEY then
           ret (StoredUnityStatus <$> unityStatus cache)
         else if String.eqb key LATEST_COMMIT_KEY then
           ret (StoredLatestCommit <$> latestCommit cache)
         else ret None) w
    end
    end.

(** [value as UnityStatus] and [value as LatestCommit | null] on a stored
    document. *)
Definition as_UnityStatus (value : Stored) : option UnityStatus.t :=
  match value with
  | StoredUnityStatus u => Some u
  | StoredLatestCommit _ => None
  end.

Definition as_LatestCommit (value : Stored) : option LatestCommit.t :=
  match value with
  | StoredLatestCommit c => Some c
  | StoredUnityStatus _ => None
  end.

Definition writeToKV (key : string) (value : Stored) : Run unit :=
  fun w =>
    match bound_for (UNITY_STATUS_KV (env w)) key UNITY_STATUS_KEY with
    | Some kv => set_UNITY_STATUS_KV (<[key := value]> kv) w
    | None =>
    match bound_for (COMMIT_CACHE_KV (env w)) key LATEST_COMMIT_KEY with
    | Some kv => set_COMMIT_CACHE_KV (<[key := value]> kv) w
    | None =>
        (cache <- the_cache ;;
         cache1 <- (if String.eqb key UNITY_STATUS_KEY then
                      let c := {| unityStatus := as_UnityStatus value;
                                  latestCommit := latestCommit cache |} in
                      _ <- set_cache c ;; ret c
                    else ret cache) ;;
         if String.eqb key LATEST_COMMIT_KEY then
           set_cache {| unityStatus := unityStatus cache1;
                        latestCommit := as_LatestCommit value |}
         else ret tt) w
    end
    end.

(** Each namespace holds, under its key, a document of its kind.  The
    routes keep it so ([routes_keep_kinds]), which is why the two casts
    above never meet a document of the other kind. *)
Definition well_kinded (e : Env) : Prop :=
  (forall kv value,
     UNITY_STATUS_KV e = Some kv -> kv !! UNITY_STATUS_KEY = Some value ->
     exists u, value = StoredUnityStatus u)
  /\ (forall kv value,
       COMMIT_CACHE_KV e = Some kv -> kv !! LATEST_COMMIT_KEY = Some value ->
       exists c, value = StoredLatestCommit c).

Definition validateUnityPayload (payload : UnityStatusUpdate.t) : Run UnityStatusUpdate.t :=
  if negb (allowedUnityStateSet_has (UnityStatusUpdate.state payload)) then
    throw (HTTPException 400 "Invalid Unity status state")
  else ret payload.

(** *** The routes: each returns the body it answers with [c.json] *)

(** [(await readFromKV<UnityStatus>(c.env, UNITY_STATUS_KEY)) ?? defaultUnityStatus]. *)
Definition read_unity_status : Run UnityStatus.t :=
  stored <- readFromKV UNITY_STATUS_KEY ;;
  ret (Js.nullish (stored ≫= as_UnityStatus) defaultUnityStatus).

(** [app.get("/api/unity-status")]: the body is [{status: stored}]. *)
Definition get_api_unity_status : Run UnityStatus.t :=
  read_unity_status.

(** [app.post("/api/unity-status")]: the body is [{stored: merged}]. *)
Definition post_api_unity_status (amb : Ambient) (payload : UnityStatusUpdate.t)
    : Run UnityStatus.t :=
  _ <- validateUnityPayload payload ;;
  current <- read_unity_status ;;
  let merged := mergeUnityStatus amb current payload in
  _ <- writeToKV UNITY_STATUS_KEY (StoredUnityStatus merged) ;;
  ret merged.

(** [app.get("/api/latest-commit")]: the body is [{commit}]. *)
Definition get_api_latest_commit : Run (option LatestCommit.t) :=
  stored <- readFromKV LATEST_COMMIT_KEY ;;
  ret (stored ≫= as_LatestCommit).

(** The commit record of lines 219 to 227, for a payload that has a head
    commit. *)
Definition normalize (amb : Ambient) (payload : GitHubWebhookPayload.t)
    (head_commit : HeadCommit.t) : LatestCommit.t :=
  let repository := GitHubWebhookPayload.repository payload in
  {| LatestCommit.id := Js.nullish (HeadCommit.id head_commit) "unknown";
     LatestCommit.message := Js.nullish (HeadCommit.message head_commit) "No commit message";
     LatestCommit.author :=
       Js.nullish (HeadCommit.author head_commit ≫= Author.name) "Unknown";
     LatestCommit.url :=
       Js.nullish (Js.nullish_opt (HeadCommit.url head_commit)
                                  (repository ≫= Repository.html_url)) "";
     LatestCommit.repository :=
       Js.nullish (repository ≫= Repository.full_name) "unknown";
     LatestCommit.committedAt :=
       Js.nullish (HeadCommit.timestamp head_commit) (toISOString (new_Date amb));
     LatestCommit.branch :=
       Js.replace "refs/heads/" "" <$> GitHubWebhookPayload.ref payload |}.

(** [app.post("/api/github-webhook")]; [None] is a body that is [null].
    The body answered is [{stored: true}]. *)
Definition post_api_github_webhook (amb : Ambient) (payload : option GitHubWebhookPayload.t)
    : Run bool :=
  match payload with
  | None => throw (HTTPException 400 "Missing head_commit in GitHub payload")
  | Some p =>
      match GitHubWebhookPayload.head_commit p with
      | None => throw (HTTPException 400 "Missing head_commit in GitHub payload")
      | Some head_commit =>
          let commit := normalize amb p head_commit in
          _ <- writeToKV LATEST_COMMIT_KEY (StoredLatestCommit commit) ;;
          ret true
      end
  end.

Record NotificationTriggerResponse : Type := {
  delivered : bool;
  forwardedToAutomation : bool;
}.

(** [await fetch(url, {method: "POST", headers, body})]: the call is made,
    then it yields [response.ok] or rejects. *)
Definition fetch_post (amb : Ambient) (url : string) (body : NotificationBody.t) : Run bool :=
  fun w =>
    let w' := {| env := env w;
                 DEV_PORTAL_CACHE := DEV_PORTAL_CACHE w;
                 outbound := {| request_url := url;
                                request_method := "POST";
                                request_content_type := "application/json";
                                request_body := body |} :: outbound w |} in
    match fetch amb url with
    | Responded ok => (w', Returned ok)
    | Rejected => (w', Threw FetchRejection)
    end.

(** [app.post("/api/trigger-notification")]; [None] is a body that is
    [null]. *)
Definition post_api_trigger_notification (amb : Ambient) (body : option NotificationBody.t)
    : Run NotificationTriggerResponse :=
  fun w =>
    match body with
    | Some b =>
        if negb (Js.truthy (NotificationBody.channel b))
           || negb (Js.truthy (NotificationBody.message b)) then
          throw (HTTPException 400 "channel and message are required") w
        else
          (forwarded <- (if Js.truthy (N8N_WEBHOOK_URL (env w)) then
                           fetch_post amb (Js.nullish (N8N_WEBHOOK_URL (env w)) "") b
                         else ret false) ;;
           ret {| delivered := true; forwardedToAutomation := forwarded |}) w
    | None => throw (HTTPException 400 "channel and message are required") w
    end.

End Worker.

(** ** The dashboard: [derivedUnityBadge] in [src/react-app/App.tsx] *)

Module ReactApp.

Inductive UnityState : Type := working | break | offline.

Module UnityActivity.
Record t : Type := mk {
  id : string;
  state : UnityState;
  label : string;
  timestamp : DateString;
}.
End UnityActivity.

Module UnityStatus.
Record t : Type := mk {
  state : UnityState;
  currentTask : string;
  activityType : string;
  sceneName : string;
  unityVersion : string;
  isPlayMode : bool;
  totalTodayHours : Q;
  totalWeekHours : Q;
  productiveStreak : Q;
  lastUpdated : DateString;
  history : list UnityActivity.t;
}.
End UnityStatus.

Definition unityActivityBadges (s : UnityState) : string :=
  match s with
  | working => "🟢 Working"
  | break => "🟡 On a Break"
  | offline => "⚫ Offline"
  end.

(** [Number.isFinite(x)] on a time value that may be [NaN]. *)
Definition Number_isFinite (x : option Z) : bool :=
  match x with
  | Some _ => true
  | None => false
  end.

(** [now - updated > limit]: [false] when [updated] is [NaN]. *)
Definition elapsed_exceeds (now : Z) (updated : option Z) (limit : Z) : bool :=
  match updated with
  | Some t => limit <? now - t
  | None => false
  end.

(** The [stale] flag of [derivedUnityBadge], [now] being [Date.now()]. *)
Definition stale (now : Z) (unityStatus : UnityStatus.t) : bool :=
  let updated := getTime (UnityStatus.lastUpdated unityStatus) in
  negb (Number_isFinite updated) || elapsed_exceeds now updated (10 * 60 * 1000).

(** The state the badge is drawn for. *)
Definition baseState (now : Z) (unityStatus : UnityStatus.t) : UnityState :=
  if stale now unityStatus then offline else UnityStatus.state unityStatus.

Definition derivedUnityBadge (now : Z) (unityStatus : UnityStatus.t) : string :=
  let badge := unityActivityBadges (baseState now unityStatus) in
  let staleSuffix := if stale now unityStatus then " • last heartbeat >10m" else "" in
  badge +:+ staleSuffix.

(** The record the dashboard starts from (line 43). *)
Definition fallbackUnityStatus : UnityStatus.t :=
  {| UnityStatus.state := offline;
     UnityStatus.currentTask := "Awaiting next development session";
     UnityStatus.activityType := "Idle";
     UnityStatus.sceneName := "-";
     UnityStatus.unityVersion := "2022.3 LTS";
     UnityStatus.isPlayMode := false;
     UnityStatus.totalTodayHours := 0%Q;
     UnityStatus.totalWeekHours := 0%Q;
     UnityStatus.productiveStreak := 0%Q;
     UnityStatus.lastUpdated := toISOString 0;
     UnityStatus.history := [] |}.

(** A working record whose [lastUpdated] is [stamp]. *)
Definition working_since (stamp : DateString) : UnityStatus.t :=
  {| UnityStatus.state := working;
     UnityStatus.currentTask := "Fix bug";
     UnityStatus.activityType := "Coding";
     UnityStatus.sceneName := "Main";
     UnityStatus.unityVersion := "2022.3 LTS";
     UnityStatus.isPlayMode := false;
     UnityStatus.totalTodayHours := 0%Q;
     UnityStatus.totalWeekHours := 0%Q;
     UnityStatus.productiveStreak := 0%Q;
     UnityStatus.lastUpdated := stamp;
     UnityStatus.history := [] |}.

End ReactApp.

(** ** Runs and inputs the properties speak of *)

Module Scenario.
Import Worker.

(** An update the validation lets through. *)
Definition valid (update : UnityStatusUpdate.t) : bool :=
  allowedUnityStateSet_has (UnityStatusUpdate.state update).

(** The heartbeat flag as [mergeUnityStatus] reads it. *)
Definition heartbeat (update : UnityStatusUpdate.t) : bool :=
  Js.nullish (UnityStatusUpdate.isHeartbeat update) false.

(** An update that carries [state] and nothing else. *)
Definition state_only (st : string) : UnityStatusUpdate.t :=
  UnityStatusUpdate.mk st None None None None None None None None None.

(** Merging a sequence of updates, each in its own ambient, oldest first. *)
Fixpoint merge_all (s : UnityStatus.t) (steps : list (Ambient * UnityStatusUpdate.t))
    : UnityStatus.t :=
  match steps with
  | [] => s
  | (amb, update) :: rest => merge_all (mergeUnityStatus amb s update) rest
  end.

(** The entry each update of a sequence prepends when it is an event,
    oldest first. *)
Fixpoint entries_of (s : UnityStatus.t) (steps : list (Ambient * UnityStatusUpdate.t))
    : list UnityActivity.t :=
  match steps with
  | [] => []
  | (amb, update) :: rest =>
      let s' := mergeUnityStatus amb s update in
      historyEntry amb (UnityStatus.lastUpdated s') s' :: entries_of s' rest
  end.

Definition all_events (steps : list (Ambient * UnityStatusUpdate.t)) : bool :=
  forallb (fun step => valid (snd step) && negb (heartbeat (snd step))) steps.

(** A quiet ambient at clock reading [t]. *)
Definition at_time (t : Z) : Ambient :=
  {| new_Date := t; Date_now := t; Math_random_hex := "0.8f3a9c2e41";
     fetch := fun _ => Responded true |}.

(** An ambient whose outbound call rejects. *)
Definition unreachable_at (t : Z) : Ambient :=
  {| new_Date := t; Date_now := t; Math_random_hex := "0.8f3a9c2e41";
     fetch := fun _ => Rejected |}.

(** A worker with no binding and an untouched cache. *)
Definition local_dev : World :=
  {| env := {| UNITY_STATUS_KV := None; COMMIT_CACHE_KV := None; N8N_WEBHOOK_URL := None |};
     DEV_PORTAL_CACHE := None;
     outbound := [] |}.

(** A worker with both namespaces bound and empty, and a webhook URL. *)
Definition deployed : World :=
  {| env := {| UNITY_STATUS_KV := Some ∅; COMMIT_CACHE_KV := Some ∅;
               N8N_WEBHOOK_URL := Some "https://n8n.example/webhook/dev" |};
     DEV_PORTAL_CACHE := None;
     outbound := [] |}.

Definition fix_bug : UnityStatusUpdate.t :=
  UnityStatusUpdate.mk "working" (Some "Fix bug") None None None None None None None
                       (Some false).

Definition coding_fix_bug : UnityStatusUpdate.t :=
  UnityStatusUpdate.mk "working" (Some "Fix bug") (Some "Coding") None None None None None
                       None (Some false).

Definition ping : UnityStatusUpdate.t :=
  UnityStatusUpdate.mk "working" None None None None None None None None (Some true).

(** The record the worker holds after [fix_bug] arrived at 00:01:00.000. *)
Definition first_write : UnityStatus.t :=
  mergeUnityStatus (at_time 60000) defaultUnityStatus fix_bug.

(** Eleven event updates, one a minute. *)
Definition eleven_events : list (Ambient * UnityStatusUpdate.t) :=
  map (fun n => (at_time (60000 * Z.of_nat n), fix_bug)) (seq 1 11).

(** The head commit of a push that names its commit id and nothing else. *)
Definition only_id (i : string) : HeadCommit.t :=
  HeadCommit.mk (Some i) None None None None.

Definition alert : NotificationBody.t :=
  NotificationBody.mk (Some "discord") None (Some "Build finished").

End Scenario.

(** ** The worker as a whole: one request after another *)

Module Server.
Import Worker.

(** The five routes that [app] registers, each with what its handler
    reads from the request. *)
Inductive Request : Type :=
| GetUnityStatus
| PostUnityStatus (payload : UnityStatusUpdate.t)
| GetLatestCommit
| PostGithubWebhook (payload : option GitHubWebhookPayload.t)
| PostTriggerNotification (body : option NotificationBody.t).

(** The JSON body a route answers. *)
Inductive Body : Type :=
| StatusBody (status : UnityStatus.t)          (* [{status}] *)
| StoredBody (stored : UnityStatus.t)          (* [{stored: merged}] *)
| CommitBody (commit : option LatestCommit.t)  (* [{commit}] *)
| StoredTrue                                   (* [{stored: true}] *)
| RelayBody (result : NotificationTriggerResponse).

(** The handler registered for the request. *)
Definition route (amb : Ambient) (r : Request) : Run Body :=
  match r with
  | GetUnityStatus => stored <- get_api_unity_status ;; ret (StatusBody stored)
  | PostUnityStatus payload =>
      merged <- post_api_unity_status amb payload ;; ret (StoredBody merged)
  | GetLatestCommit => commit <- get_api_latest_commit ;; ret (CommitBody commit)
  | PostGithubWebhook payload => _ <- post_api_github_webhook amb payload ;; ret StoredTrue
  | PostTriggerNotification body =>
      result <- post_api_trigger_notification amb body ;; ret (RelayBody result)
  end.

(** The world after a run of requests, each in its own ambient, oldest
    first. *)
Fixpoint serve (steps : list (Ambient * Request)) (w : World) : World :=
  match steps with
  | [] => w
  | (amb, r) :: rest => serve rest (fst (route amb r w))
  end.

(** The record a GET of the status answers in this world. *)
Definition served_status (w : World) : UnityStatus.t :=
  match snd (get_api_unity_status w) with
  | Returned stored => stored
  | Threw _ => defaultUnityStatus
  end.

(** The commit a GET of the latest commit answers in this world. *)
Definition served_commit (w : World) : option LatestCommit.t :=
  match snd (get_api_latest_commit w) with
  | Returned commit => commit
  | Threw _ => None
  end.

(** What is held under the status key, wherever this world keeps it. *)
Definition held_status (w : World) : option UnityStatus.t :=
  match UNITY_STATUS_KV (env w) with
  | Some kv => kv !! UNITY_STATUS_KEY ≫= as_UnityStatus
  | None => DEV_PORTAL_CACHE w ≫= unityStatus
  end.

Definition held_commit (w : World) : option LatestCommit.t :=
  match COMMIT_CACHE_KV (env w) with
  | Some kv => kv !! LATEST_COMMIT_KEY ≫= as_LatestCommit
  | None => DEV_PORTAL_CACHE w ≫= latestCommit
  end.

Definition is_date (s : DateString) : bool :=
  match getTime s with
  | Some _ => true
  | None => false
  end.

(** A status record as the data model describes it: an allowed state, at
    most ten history entries, and dates where dates belong. *)
Definition sound (u : UnityStatus.t) : bool :=
  allowedUnityStateSet_has (UnityStatus.state u)
  && (length (UnityStatus.history u) <=? 10)%nat
  && is_date (UnityStatus.lastUpdated u)
  && forallb (fun entry =>
                allowedUnityStateSet_has (UnityActivity.state entry)
                && is_date (UnityActivity.timestamp entry))
             (UnityStatus.history u).

(** The entries that the event updates of a sequence prepend, oldest
    first; a heartbeat adds none. *)
Fixpoint event_entries (s : UnityStatus.t) (steps : list (Ambient * UnityStatusUpdate.t))
    : list UnityActivity.t :=
  match steps with
  | [] => []
  | (amb, update) :: rest =>
      let s' := mergeUnityStatus amb s update in
      if Scenario.heartbeat update then event_entries s' rest
      else historyEntry amb (UnityStatus.lastUpdated s') s' :: event_entries s' rest
  end.

(** A day in the life of a fresh worker. *)
Definition busy_day : list (Ambient * Request) :=
  [ (Scenario.at_time 60000, PostUnityStatus Scenario.fix_bug);
    (Scenario.at_time 120000, PostUnityStatus Scenario.ping);
    (Scenario.at_time 130000, PostUnityStatus (Scenario.state_only "paused"));
    (Scenario.at_time 140000, PostGithubWebhook (Some (GitHubWebhookPayload.mk None None None)));
    (Scenario.unreachable_at 150000, PostTriggerNotification (Some Scenario.alert));
    (Scenario.at_time 160000, GetUnityStatus);
    (Scenario.at_time 180000, PostUnityStatus Scenario.coding_fix_bug) ].

(** The POST of a status up to the point where [readFromKV] has
    answered, and from there on: the two stretches between which another
    request can run. *)
Definition post_unity_status_read (payload : UnityStatusUpdate.t) : Run UnityStatus.t :=
  _ <- validateUnityPayload payload ;;
  read_unity_status.

Definition post_unity_status_write (amb : Ambient) (payload : UnityStatusUpdate.t)
    (current : UnityStatus.t) : Run UnityStatus.t :=
  let merged := mergeUnityStatus amb current payload in
  _ <- writeToKV UNITY_STATUS_KEY (StoredUnityStatus merged) ;;
  ret merged.

(** Two POSTs of a status that overlap: both read before either writes;
    the first then writes, then the second. *)
Definition overlapping_posts (ambA : Ambient) (payloadA : UnityStatusUpdate.t)
    (ambB : Ambient) (payloadB : UnityStatusUpdate.t) : Run (UnityStatus.t * UnityStatus.t) :=
  currentA <- post_unity_status_read payloadA ;;
  currentB <- post_unity_status_read payloadB ;;
  mergedA <- post_unity_status_write ambA payloadA currentA ;;
  mergedB <- post_unity_status_write ambB payloadB currentB ;;
  ret (mergedA, mergedB).

(** A run of POSTs of a status as requests. *)
Definition posts (steps : list (Ambient * UnityStatusUpdate.t)) : list (Ambient * Request) :=
  map (fun step => (fst step, PostUnityStatus (snd step))) steps.

(** The updates of a run that the validation lets through. *)
Definition accepted (steps : list (Ambient * UnityStatusUpdate.t))
    : list (Ambient * UnityStatusUpdate.t) :=
  List.filter (fun step => Scenario.valid (snd step)) steps.

End Server.

(** ** The dashboard besides the badge: [src/react-app/App.tsx] *)

Module Dashboard.
Import ReactApp.

Inductive Route : Type := overview | forum | store | admin.

Fixpoint all_slashes (s : string) : bool :=
  match s with
  | EmptyString => true
  | String c s' => Ascii.eqb c "/" && all_slashes s'
  end.

(** [s.replace(/\/+$/, "")]: the match is the leftmost place from which
    only slashes, and at least one, reach the end. *)
Fixpoint strip_trailing_slashes (s : string) : string :=
  match s with
  | EmptyString => EmptyString
  | String c s' => if all_slashes s then EmptyString else String c (strip_trailing_slashes s')
  end.

Definition normalizePathname (pathname : string) : string :=
  match pathname with
  | EmptyString => "/"
  | _ =>
      let normalized := strip_trailing_slashes pathname in
      if String.eqb normalized "" then "/" else normalized
  end.

Definition routeFromPathname (pathname : string) : Route :=
  let normalized := normalizePathname pathname in
  if String.eqb normalized "/forum" then forum
  else if String.eqb normalized "/store" then store
  else if String.eqb normalized "/admin" then admin
  else overview.

Definition pathnameFromRoute (route : Route) : string :=
  match route with
  | forum => "/forum"
  | store => "/store"
  | admin => "/admin"
  | overview => "/"
  end.

(** The window and the [route] state of [App], in a browser. *)
Record Browser : Type := {
  pathname : string;         (* [window.location.pathname] *)
  entries : list string;     (* the session history behind it, newest first *)
  route : Route;             (* the [route] state *)
  scrolls : nat;             (* scrolls to the top that were asked for *)
}.

(** [window.history.pushState(null, "", path)]. *)
Definition pushState (path : string) (b : Browser) : Browser :=
  {| pathname := path; entries := pathname b :: entries b;
     route := route b; scrolls := scrolls b |}.

(** [window.history.replaceState(null, "", path)]. *)
Definition replaceState (path : string) (b : Browser) : Browser :=
  {| pathname := path; entries := entries b; route := route b; scrolls := scrolls b |}.

Definition setRoute (to : Route) (b : Browser) : Browser :=
  {| pathname := pathname b; entries := entries b; route := to; scrolls := scrolls b |}.

(** A page load at [path]: [useState] starts [route] from the path. *)
Definition load (path : string) : Browser :=
  {| pathname := path; entries := []; route := routeFromPathname path; scrolls := 0 |}.

(** The first effect of [App] (lines 529 to 539). *)
Definition mount (b : Browser) : Browser :=
  let normalized := normalizePathname (pathname b) in
  let derived := routeFromPathname normalized in
  let canonical := pathnameFromRoute derived in
  let b' := if String.eqb canonical normalized then b else replaceState canonical b in
  setRoute derived b'.

(** [navigate(to)] in a browser. *)
Definition navigate (to : Route) (b : Browser) : Browser :=
  let targetPath := pathnameFromRoute to in
  let currentPath := normalizePathname (pathname b) in
  let b' := if String.eqb currentPath targetPath then b else pushState targetPath b in
  let b'' := setRoute to b' in
  {| pathname := pathname b''; entries := entries b''; route := route b'';
     scrolls := S (scrolls b'') |}.

(** The back button, then [handlePopState]; with nothing behind, the
    page is left and nothing of it changes. *)
Definition back (b : Browser) : Browser :=
  match entries b with
  | [] => b
  | path :: older =>
      {| pathname := path; entries := older; route := routeFromPathname path;
         scrolls := scrolls b |}
  end.

Inductive Event : Type :=
| Navigate (to : Route)
| Back.

Definition react (e : Event) (b : Browser) : Browser :=
  match e with
  | Navigate to => navigate to b
  | Back => back b
  end.

Fixpoint browse (events : list Event) (b : Browser) : Browser :=
  match events with
  | [] => b
  | e :: rest => browse rest (react e b)
  end.

(** [Math.round(n / d)] for an integer [n] and [d] one of 60000, 60 and
    24: the quotient rounded to the nearest integer, a half going up.
    The double quotient rounds the same way for every [n] below 2^52 in
    size: a half is represented exactly and any other quotient is
    further from a half than the rounding of the division can move it. *)
Definition Math_round_div (n d : Z) : Z := (2 * n + d) / (2 * d).

(** [`${n} ${unit}${n === 1 ? "" : "s"} ago`]. *)
Definition ago (n : Z) (unit : string) : string :=
  pretty n +:+ " " +:+ unit +:+ (if n =? 1 then "" else "s") +:+ " ago".

(** [formatRelativeTime], [now] being [Date.now()]. *)
Definition formatRelativeTime (now : Z) (lastUpdated : DateString) : string :=
  match getTime lastUpdated with
  | None => "No activity tracked yet"
  | Some updated =>
      if updated <=? 0 then "No activity tracked yet"
      else
        let diff := now - updated in
        let minutes := Math_round_div diff (60 * 1000) in
        if minutes <? 1 then "just now"
        else if minutes <? 60 then ago minutes "minute"
        else
          let hours := Math_round_div minutes 60 in
          if hours <? 24 then ago hours "hour"
          else
            let days := Math_round_div hours 24 in
            ago days "day"
  end.

(** What a [fetch] of the dashboard ends in: a response with its [ok]
    and, when [response.json()] does not throw, the parsed body; or a
    rejection. *)
Inductive Reply (A : Type) : Type :=
| Answered (ok : bool) (body : option A)
| Unreachable.

Arguments Answered {A} ok body.
Arguments Unreachable {A}.

(** [fetchUnityStatus]: the new [unityStatus] state.  The body is
    [{status}]; [None] inside is a body without a status. *)
Definition fetchUnityStatus (cancelled : bool) (reply : Reply (option UnityStatus.t))
    (unityStatus : UnityStatus.t) : UnityStatus.t :=
  match reply with
  | Answered true (Some (Some status)) => if cancelled then unityStatus else status
  | _ => unityStatus
  end.

(** The body that [triggerDemoNotification] posts. *)
Definition demoNotification : Worker.NotificationBody.t :=
  Worker.NotificationBody.mk
    (Some "discord") (Some "Showcase Notification")
    (Some "This is what a Discord + Gmail workflow will deliver when a milestone ships.").

(** [triggerDemoNotification]: the new [notificationResult] state. *)
Definition triggerDemoNotification (reply : Reply Worker.NotificationTriggerResponse)
    : Worker.NotificationTriggerResponse :=
  match reply with
  | Answered true (Some payload) => payload
  | _ => {| Worker.delivered := false; Worker.forwardedToAutomation := false |}
  end.

(** The last character of a string, if any. *)
Fixpoint last_char (s : string) : option ascii :=
  match s with
  | EmptyString => None
  | String c EmptyString => Some c
  | String _ s' => last_char s'
  end.

(** A run of [n] slashes. *)
Fixpoint slashes (n : nat) : string :=
  match n with
  | O => EmptyString
  | S n' => String "/" (slashes n')
  end.

(** The address and the view shown agree: the normalised path is the
    path of the route in state. *)
Definition agree (b : Browser) : Prop :=
  normalizePathname (pathname b) = pathnameFromRoute (route b).

(** A path that normalises to the path of a route. *)
Definition known (path : string) : Prop :=
  normalizePathname path = pathnameFromRoute (routeFromPathname path).

End Dashboard.

(** ** The wire between the worker and the dashboard *)

Module Wire.

(** The response a completed route is sent as: a returned body is a 200
    with that JSON; an exception, of either kind, is a response that is
    not [ok] and carries no JSON of the route. *)
Definition respond {A : Type} (c : Worker.Completion A) : Dashboard.Reply A :=
  match c with
  | Worker.Returned body => Dashboard.Answered true (Some body)
  | Worker.Threw _ => Dashboard.Answered false None
  end.

(** A state string read as the dashboard's [UnityState]. *)
Definition decode_state (s : string) : option ReactApp.UnityState :=
  if String.eqb s "working" then Some ReactApp.working
  else if String.eqb s "break" then Some ReactApp.break
  else if String.eqb s "offline" then Some ReactApp.offline
  else None.

Definition decode_entry (e : Worker.UnityActivity.t) : option ReactApp.UnityActivity.t :=
  match decode_state (Worker.UnityActivity.state e) with
  | Some st =>
      Some (ReactApp.UnityActivity.mk (Worker.UnityActivity.id e) st
              (Worker.UnityActivity.label e) (Worker.UnityActivity.timestamp e))
  | None => None
  end.

Fixpoint decode_history (h : list Worker.UnityActivity.t)
    : option (list ReactApp.UnityActivity.t) :=
  match h with
  | [] => Some []
  | e :: rest =>
      match decode_entry e, decode_history rest with
      | Some e', Some rest' => Some (e' :: rest')
      | _, _ => None
      end
  end.

(** The status of a [{status}] body as the dashboard's [UnityStatus]:
    the same members; there is none when a state is outside the type. *)
Definition decode_status (u : Worker.UnityStatus.t) : option ReactApp.UnityStatus.t :=
  match decode_state (Worker.UnityStatus.state u),
        decode_history (Worker.UnityStatus.history u) with
  | Some st, Some h =>
      Some (ReactApp.UnityStatus.mk st
              (Worker.UnityStatus.currentTask u) (Worker.UnityStatus.activityType u)
              (Worker.UnityStatus.sceneName u) (Worker.UnityStatus.unityVersion u)
              (Worker.UnityStatus.isPlayMode u) (Worker.UnityStatus.totalTodayHours u)
              (Worker.UnityStatus.totalWeekHours u) (Worker.UnityStatus.productiveStreak u)
              (Worker.UnityStatus.lastUpdated u) h)
  | _, _ => None
  end.

(** One poll of the dashboard against the worker: GET, then
    [fetchUnityStatus] on the answer.  There is no result when the record
    served has a state outside the dashboard's type. *)
Definition poll (w : Worker.World) (unityStatus : ReactApp.UnityStatus.t)
    : option ReactApp.UnityStatus.t :=
  match snd (Worker.get_api_unity_status w) with
  | Worker.Returned stored =>
      match decode_status stored with
      | Some status =>
          Some (Dashboard.fetchUnityStatus false
                  (Dashboard.Answered true (Some (Some status))) unityStatus)
      | None => None
      end
  | Worker.Threw _ =>
      Some (Dashboard.fetchUnityStatus false (Dashboard.Answered false None) unityStatus)
  end.

End Wire.

(** ** The Unity editor plugin: [DevStatusTracker] (the C# file of
    [src/unnamed/part_000])

    A [DateTime] is its [Ticks]: the number of 100 ns steps since
    0001-01-01T00:00, a Monday, from 0 to [MaxTicks].  The seconds
    counters are doubles that the functions modelled here only compare
    and reset; they are kept as rationals.  [productiveStreak] is a
    32-bit [int].  The members that only [OnEditorUpdate], [OnGUI] and the
    completion callback use are left out. *)

Module Plugin.

Definition TicksPerDay : Z := 864000000000.
Definition MaxTicks : Z := 3155378975999999999.

(** A value a [DateTime] can hold. *)
Definition is_DateTime (time : Z) : Prop := 0 <= time <= MaxTicks.

(** [time.Date]. *)
Definition Date (time : Z) : Z := time - time mod TicksPerDay.

(** [(int)time.DayOfWeek]: Sunday is 0. *)
Definition DayOfWeek (time : Z) : Z := (time / TicksPerDay + 1) mod 7.

(** [time.AddDays(days)] for a whole number of days; [None] is the
    [ArgumentOutOfRangeException]. *)
Definition AddDays (time days : Z) : option Z :=
  let ticks := time + days * TicksPerDay in
  if (0 <=? ticks) && (ticks <=? MaxTicks) then Some ticks else None.

Definition GetWeekAnchor (time : Z) : option Z :=
  let date := Date time in
  let diff := Z.rem (DayOfWeek date + 6) 7 in
  AddDays date (- diff).

(** [unchecked((int) z)]. *)
Definition int32 (z : Z) : Z := (z + 2147483648) mod 4294967296 - 2147483648.

Inductive ActivityType : Type := Coding | Art | Design | Testing | Documentation.

(** [activity.ToString()]. *)
Definition ActivityType_ToString (activity : ActivityType) : string :=
  match activity with
  | Coding => "Coding"
  | Art => "Art"
  | Design => "Design"
  | Testing => "Testing"
  | Documentation => "Documentation"
  end.

Record Tracker : Type := {
  workerEndpoint : string;
  currentTask : string;
  activity : ActivityType;
  isWorking : bool;
  todaySeconds : Q;
  weekSeconds : Q;
  currentDay : Z;
  currentWeekAnchor : Z;
  productiveStreak : Z;
  lastHeartbeat : Z;
  statusMessage : string;
  sendInFlight : bool;
}.

(** The day part of [RollCalendars]: the block under
    [now.Date != currentDay]. *)
Definition roll_day (now : Z) (t : Tracker) : Tracker :=
  if Date now =? currentDay t then t
  else
    {| workerEndpoint := workerEndpoint t;
       currentTask := currentTask t;
       activity := activity t;
       isWorking := isWorking t;
       todaySeconds := 0%Q;
       weekSeconds := weekSeconds t;
       currentDay := Date now;
       currentWeekAnchor := currentWeekAnchor t;
       productiveStreak :=
         if Qle_bool 1800 (todaySeconds t) then int32 (productiveStreak t + 1) else 0;
       lastHeartbeat := lastHeartbeat t;
       statusMessage := statusMessage t;
       sendInFlight := sendInFlight t |}.

(** The week part of [RollCalendars]: the block under
    [anchor != currentWeekAnchor]. *)
Definition roll_week (anchor : Z) (t : Tracker) : Tracker :=
  if anchor =? currentWeekAnchor t then t
  else
    {| workerEndpoint := workerEndpoint t;
       currentTask := currentTask t;
       activity := activity t;
       isWorking := isWorking t;
       todaySeconds := todaySeconds t;
       weekSeconds := 0%Q;
       currentDay := currentDay t;
       currentWeekAnchor := anchor;
       productiveStreak := productiveStreak t;
       lastHeartbeat := lastHeartbeat t;
       statusMessage := statusMessage t;
       sendInFlight := sendInFlight t |}.

(** [RollCalendars(now)]; [None] is the exception of [GetWeekAnchor]. *)
Definition RollCalendars (now : Z) (t : Tracker) : option Tracker :=
  let t' := roll_day now t in
  match GetWeekAnchor now with
  | Some anchor => Some (roll_week anchor t')
  | None => None
  end.

(** The request body, as [JsonUtility.ToJson] writes every member. *)
Record UnityStatusRequest : Type := {
  state : string;
  request_currentTask : string;
  activityType : string;
  sceneName : string;
  unityVersion : string;
  isPlayMode : bool;
  totalTodayHours : Q;
  totalWeekHours : Q;
  request_productiveStreak : Z;
  isHeartbeat : bool;
}.

(** What [SendStatusUpdate] reads from the editor and from .NET. *)
Record Editor : Type := {
  UtcNow : Z;                            (* [DateTime.UtcNow] *)
  activeSceneName : string;              (* [SceneManager.GetActiveScene().name] *)
  Application_unityVersion : string;
  EditorApplication_isPlaying : bool;
  IsNullOrWhiteSpace : string -> bool;   (* [string.IsNullOrWhiteSpace] *)
  hours : Q -> Q;                        (* [Math.Round(seconds / 3600d, 2)] *)
}.

(** [SendStatusUpdate(offline, heartbeat)] up to [SendWebRequest]: the
    tracker afterwards and the body that is sent, if one is. *)
Definition SendStatusUpdate (ed : Editor) (offline heartbeat : bool) (t : Tracker)
    : Tracker * option UnityStatusRequest :=
  if sendInFlight t then (t, None)
  else if IsNullOrWhiteSpace ed (workerEndpoint t) then
    ({| workerEndpoint := workerEndpoint t;
        currentTask := currentTask t;
        activity := activity t;
        isWorking := isWorking t;
        todaySeconds := todaySeconds t;
        weekSeconds := weekSeconds t;
        currentDay := currentDay t;
        currentWeekAnchor := currentWeekAnchor t;
        productiveStreak := productiveStreak t;
        lastHeartbeat := lastHeartbeat t;
        statusMessage := "Please configure a valid Cloudflare Worker endpoint.";
        sendInFlight := sendInFlight t |}, None)
  else
    let payload :=
      {| state := if offline then "offline" else if isWorking t then "working" else "break";
         request_currentTask :=
           if IsNullOrWhiteSpace ed (currentTask t) then "Unspecified task" else currentTask t;
         activityType := ActivityType_ToString (activity t);
         sceneName := activeSceneName ed;
         unityVersion := Application_unityVersion ed;
         isPlayMode := EditorApplication_isPlaying ed;
         totalTodayHours := hours ed (todaySeconds t);
         totalWeekHours := hours ed (weekSeconds t);
         request_productiveStreak := productiveStreak t;
         isHeartbeat := heartbeat |} in
    ({| workerEndpoint := workerEndpoint t;
        currentTask := currentTask t;
        activity := activity t;
        isWorking := isWorking t;
        todaySeconds := todaySeconds t;
        weekSeconds := weekSeconds t;
        currentDay := currentDay t;
        currentWeekAnchor := currentWeekAnchor t;
        productiveStreak := productiveStreak t;
        lastHeartbeat := UtcNow ed;
        statusMessage := statusMessage t;
        sendInFlight := true |}, Some payload).

(** The request body as the worker reads it from [c.req.json()]: every
    member is there. *)
Definition to_wire (request : UnityStatusRequest) : Worker.UnityStatusUpdate.t :=
  Worker.UnityStatusUpdate.mk
    (state request) (Some (request_currentTask request)) (Some (activityType request))
    (Some (sceneName request)) (Some (unityVersion request)) (Some (isPlayMode request))
    (Some (totalTodayHours request)) (Some (totalWeekHours request))
    (Some (inject_Z (request_productiveStreak request))) (Some (isHeartbeat request)).

(** An editor at the given clock reading, with a whitespace test that
    knows the empty string and the single space. *)
Definition editor_at (now : Z) : Editor :=
  {| UtcNow := now;
     activeSceneName := "Main";
     Application_unityVersion := "2022.3.10f1";
     EditorApplication_isPlaying := false;
     IsNullOrWhiteSpace := fun s => String.eqb s "" || String.eqb s " ";
     hours := fun seconds => (seconds / 3600)%Q |}.

(** 2024-01-01T00:00 (a Monday) and the tracker of a session that has
    worked 45 minutes that day. *)
Definition monday_2024 : Z := 638396640000000000.

Definition at_work : Tracker :=
  {| workerEndpoint := "https://example.dev/api/unity-status";
     currentTask := "Fix bug";
     activity := Coding;
     isWorking := true;
     todaySeconds := 2700%Q;
     weekSeconds := 2700%Q;
     currentDay := monday_2024;
     currentWeekAnchor := monday_2024;
     productiveStreak := 3;
     lastHeartbeat := monday_2024;
     statusMessage := "Awaiting first synchronisation.";
     sendInFlight := false |}.

(** A tracker whose calendar members fit together and whose counters
    are in order: the week anchor is the Monday of the current day, and
    the seconds of today are at most the seconds of the week. *)
Definition consistent (t : Tracker) : Prop :=
  is_DateTime (currentDay t)
  /\ GetWeekAnchor (currentDay t) = Some (currentWeekAnchor t)
  /\ (0 <= todaySeconds t)%Q
  /\ (todaySeconds t <= weekSeconds t)%Q.

End Plugin.

(** ** Properties of [mergeUnityStatus] *)

Section MergeFacts.
Import Worker Scenario.

Lemma firstn_app_firstn {A : Type} (n : nat) (l1 l2 : list A) :
  firstn n (l1 ++ firstn n l2) = firstn n (l1 ++ l2).
Proof.
  rewrite !firstn_app, firstn_firstn.
  f_equal. f_equal. lia.
Qed.

(** The bytes of the separator as the source file holds them, and those
    of an em dash between two spaces. *)
Example label_separator_bytes :
  map nat_of_ascii (list_ascii_of_string label_separator)
  = [32; 195; 162; 226; 130; 172; 226; 128; 157; 32]%nat.
Proof. reflexivity. Qed.

Example em_dash_bytes :
  map nat_of_ascii (list_ascii_of_string " — ") = [32; 226; 128; 148; 32]%nat.
Proof. reflexivity. Qed.

Lemma set_history_history next h : UnityStatus.history (set_history next h) = h.
Proof. reflexivity. Qed.

(** The scalar members of the merged record do not depend on the branch
    taken for the history. *)
Lemma merge_state amb previous update :
  UnityStatus.state (mergeUnityStatus amb previous update) = UnityStatusUpdate.state update.
Proof. unfold mergeUnityStatus. destruct (negb _); reflexivity. Qed.

Lemma merge_currentTask amb previous update :
  UnityStatus.currentTask (mergeUnityStatus amb previous update)
  = Js.nullish (UnityStatusUpdate.currentTask update) (UnityStatus.currentTask previous).
Proof. unfold mergeUnityStatus. destruct (negb _); reflexivity. Qed.

Lemma merge_activityType amb previous update :
  UnityStatus.activityType (mergeUnityStatus amb previous update)
  = Js.nullish (UnityStatusUpdate.activityType update) (UnityStatus.activityType previous).
Proof. unfold mergeUnityStatus. destruct (negb _); reflexivity. Qed.

Lemma merge_lastUpdated amb previous update :
  UnityStatus.lastUpdated (mergeUnityStatus amb previous update) = toISOString (new_Date amb).
Proof. unfold mergeUnityStatus. destruct (negb _); reflexivity. Qed.

Lemma merge_isHeartbeat amb previous update :
  UnityStatus.isHeartbeat (mergeUnityStatus amb previous update)
  = Js.nullish_opt (UnityStatusUpdate.isHeartbeat update) (UnityStatus.isHeartbeat previous).
Proof. unfold mergeUnityStatus. destruct (negb _); reflexivity. Qed.

(** An event update prepends the entry built from the merged record and
    keeps the ten newest. *)
Lemma merge_history_event amb previous update :
  heartbeat update = false ->
  UnityStatus.history (mergeUnityStatus amb previous update)
  = firstn 10
      (historyEntry amb (toISOString (new_Date amb)) (mergeUnityStatus amb previous update)
       :: UnityStatus.history previous).
Proof.
  unfold heartbeat, mergeUnityStatus. intros ->. reflexivity.
Qed.

Lemma merge_history_heartbeat amb previous update :
  heartbeat update = true ->
  UnityStatus.history (mergeUnityStatus amb previous update) = UnityStatus.history previous.
Proof.
  unfold heartbeat, mergeUnityStatus. intros ->. reflexivity.
Qed.

(** Length, head state, head label and head timestamp after an event
    update, for every previous record. *)
Lemma merge_event_entry amb previous update :
  heartbeat update = false ->
  let next := mergeUnityStatus amb previous update in
  length (UnityStatus.history next)
  = Nat.min (length (UnityStatus.history previous) + 1) 10
  /\ exists entry older,
      UnityStatus.history next = entry :: older
      /\ UnityActivity.state entry = UnityStatus.state next
      /\ UnityActivity.label entry
         = UnityStatus.activityType next +:+ label_separator +:+ UnityStatus.currentTask next
      /\ UnityActivity.timestamp entry = UnityStatus.lastUpdated next.
Proof.
  intros Hev next. subst next.
  rewrite (merge_history_event _ _ _ Hev). split.
  - rewrite length_firstn. simpl length. lia.
  - eexists _, _. split; [reflexivity|].
    rewrite merge_lastUpdated. repeat split.
Qed.

Lemma merge_event_entry_after_first_write :
  length (UnityStatus.history (mergeUnityStatus (at_time 120000) first_write coding_fix_bug))
  = Nat.min (length (UnityStatus.history first_write) + 1) 10
  /\ exists entry older,
      UnityStatus.history (mergeUnityStatus (at_time 120000) first_write coding_fix_bug)
      = entry :: older
      /\ UnityActivity.state entry
         = UnityStatus.state (mergeUnityStatus (at_time 120000) first_write coding_fix_bug)
      /\ UnityActivity.label entry
         = UnityStatus.activityType
             (mergeUnityStatus (at_time 120000) first_write coding_fix_bug)
           +:+ label_separator
           +:+ UnityStatus.currentTask
                 (mergeUnityStatus (at_time 120000) first_write coding_fix_bug)
      /\ UnityActivity.timestamp entry
         = UnityStatus.lastUpdated
             (mergeUnityStatus (at_time 120000) first_write coding_fix_bug).
Proof.
  apply (merge_event_entry (at_time 120000) first_write coding_fix_bug). reflexivity.
Defined.

Lemma merge_history_bounded amb previous update :
  (length (UnityStatus.history previous) <= 10)%nat ->
  (length (UnityStatus.history (mergeUnityStatus amb previous update)) <= 10)%nat.
Proof.
  intros Hlen. destruct (heartbeat update) eqn:Hb.
  - rewrite merge_history_heartbeat by assumption. exact Hlen.
  - rewrite merge_history_event by assumption.
    rewrite length_firstn. lia.
Qed.

(** After a run of event updates the history is the ten newest of the
    entries built, newest first, followed by what was there before. *)
Lemma merge_all_history s steps :
  (length (UnityStatus.history s) <= 10)%nat ->
  all_events steps = true ->
  UnityStatus.history (merge_all s steps)
  = firstn 10 (rev (entries_of s steps) ++ UnityStatus.history s).
Proof.
  revert s. induction steps as [|[amb update] rest IH]; intros s Hlen Hall.
  - cbn [merge_all entries_of rev app].
    symmetry. apply firstn_all2. exact Hlen.
  - cbn [all_events forallb snd] in Hall.
    apply andb_prop in Hall as [Hstep Hrest].
    apply andb_prop in Hstep as [_ Hev].
    apply negb_true_iff in Hev.
    cbn [merge_all entries_of rev].
    rewrite IH; [| apply merge_history_bounded; exact Hlen | exact Hrest].
    rewrite (merge_history_event _ _ _ Hev), merge_lastUpdated.
    rewrite firstn_app_firstn, <- app_assoc. reflexivity.
Qed.

Lemma entries_of_length s steps : length (entries_of s steps) = length steps.
Proof.
  revert s. induction steps as [|[amb update] rest IH]; intros s; cbn; [|rewrite IH]; reflexivity.
Qed.

End MergeFacts.

(** ** The status merge engine *)

Section MergeClaims.
Import Worker Scenario.

(** C1, evaluated on the default record and the update
    [{state: "working", currentTask: "Fix bug", activityType: "Coding",
    isHeartbeat: false}]: the history grows from 0 to 1, the head entry
    carries the merged state, activity type and task and the time stamp of
    the merged record, but its label joins them with the three characters
    U+00E2 U+20AC U+201D of the source and not with an em dash, so the
    label differs from "Coding — Fix bug". *)
Theorem C1_event_label_separator :
  let next := mergeUnityStatus (at_time 60000) defaultUnityStatus coding_fix_bug in
  exists entry,
    UnityStatus.history next = [entry]
    /\ UnityActivity.state entry = UnityStatus.state next
    /\ UnityActivity.timestamp entry = UnityStatus.lastUpdated next
    /\ UnityStatus.activityType next = "Coding"
    /\ UnityStatus.currentTask next = "Fix bug"
    /\ UnityActivity.label entry = "Coding â€” Fix bug"
    /\ String.eqb (UnityActivity.label entry) "Coding — Fix bug" = false.
Proof.
  eexists. repeat split.
Qed.

(** C2: a merge keeps a history of at most ten entries at most ten long,
    for every valid update; and eleven event updates in a row, from the
    default record, leave exactly the entries of the last ten, newest
    first: the entry of the first update is gone. *)
Theorem C2_history_at_most_ten amb previous update steps :
  ((length (UnityStatus.history previous) <= 10)%nat ->
   valid update = true ->
   (length (UnityStatus.history (mergeUnityStatus amb previous update)) <= 10)%nat)
  /\ (length steps = 11%nat ->
      all_events steps = true ->
      exists oldest newer,
        entries_of defaultUnityStatus steps = oldest :: newer
        /\ UnityStatus.history (merge_all defaultUnityStatus steps) = rev newer
        /\ length (UnityStatus.history (merge_all defaultUnityStatus steps)) = 10%nat).
Proof.
  split.
  - intros Hlen _. apply merge_history_bounded. exact Hlen.
  - intros Hn Hall.
    pose proof (entries_of_length defaultUnityStatus steps) as Hlen.
    rewrite Hn in Hlen.
    destruct (entries_of defaultUnityStatus steps) as [|oldest newer] eqn:He;
      [discriminate Hlen|].
    exists oldest, newer. split; [reflexivity|].
    assert (Hnewer : length newer = 10%nat) by (cbn in Hlen; lia).
    assert (Hhist : UnityStatus.history (merge_all defaultUnityStatus steps) = rev newer).
    { rewrite merge_all_history; [| cbn; lia | exact Hall].
      rewrite He. cbn [UnityStatus.history defaultUnityStatus rev].
      rewrite app_nil_r, firstn_app, length_rev, Hnewer.
      rewrite Nat.sub_diag. cbn [firstn]. rewrite app_nil_r.
      apply firstn_all2. rewrite length_rev. lia. }
    split; [exact Hhist|].
    rewrite Hhist, length_rev. exact Hnewer.
Qed.

Lemma C2_eleven_fix_bug_updates :
  (length (UnityStatus.history (mergeUnityStatus (at_time 60000) first_write fix_bug))
   <= 10)%nat
  /\ exists oldest newer,
      entries_of defaultUnityStatus eleven_events = oldest :: newer
      /\ UnityStatus.history (merge_all defaultUnityStatus eleven_events) = rev newer
      /\ length (UnityStatus.history (merge_all defaultUnityStatus eleven_events)) = 10%nat.
Proof.
  destruct (C2_history_at_most_ten (at_time 60000) first_write fix_bug eleven_events)
    as [Hbound Hrun].
  split.
  - apply Hbound; [cbn; lia | reflexivity].
  - apply Hrun; reflexivity.
Defined.

(** C3, as the code has it: a heartbeat keeps the history as it was and
    stamps [lastUpdated] with the clock reading of the merge; the stamp is
    strictly later than the previous one exactly when that reading is
    strictly later than the previous stamp. *)
Theorem C3_heartbeat_keeps_history amb previous update :
  valid update = true ->
  UnityStatusUpdate.isHeartbeat update = Some true ->
  UnityStatus.history (mergeUnityStatus amb previous update) = UnityStatus.history previous
  /\ UnityStatus.lastUpdated (mergeUnityStatus amb previous update)
     = toISOString (new_Date amb)
  /\ (laterb (UnityStatus.lastUpdated (mergeUnityStatus amb previous update))
              (UnityStatus.lastUpdated previous) = true
      <-> exists t, getTime (UnityStatus.lastUpdated previous) = Some t /\ t < new_Date amb).
Proof.
  intros _ Hhb.
  assert (Hb : heartbeat update = true) by (unfold heartbeat; rewrite Hhb; reflexivity).
  split; [apply merge_history_heartbeat; exact Hb|].
  split; [apply merge_lastUpdated|].
  rewrite merge_lastUpdated. unfold laterb, toISOString. cbn [getTime].
  destruct (getTime (UnityStatus.lastUpdated previous)) as [t|].
  - rewrite Z.ltb_lt. split.
    + intros Hlt. exists t. split; [reflexivity | exact Hlt].
    + intros (t' & Ht' & Hlt). injection Ht' as ->. exact Hlt.
  - split; [discriminate|]. intros (t & Ht & _). discriminate Ht.
Qed.

Lemma C3_heartbeat_a_minute_later :
  UnityStatus.history (mergeUnityStatus (at_time 120000) first_write ping)
  = UnityStatus.history first_write
  /\ UnityStatus.lastUpdated (mergeUnityStatus (at_time 120000) first_write ping)
     = toISOString 120000
  /\ laterb (UnityStatus.lastUpdated (mergeUnityStatus (at_time 120000) first_write ping))
            (UnityStatus.lastUpdated first_write) = true.
Proof.
  destruct (C3_heartbeat_keeps_history (at_time 120000) first_write ping)
    as (Hhist & Hstamp & Hlater); [reflexivity | reflexivity |].
  split; [exact Hhist|]. split; [exact Hstamp|].
  apply Hlater. exists 60000. split; [reflexivity | reflexivity].
Defined.

(** C3 as stated fails when the heartbeat is merged in the millisecond
    the previous record was written in: the update is valid, it is a
    heartbeat, and the new [lastUpdated] is not later than the previous
    one. *)
Lemma C3_same_millisecond_heartbeat :
  valid ping = true
  /\ UnityStatusUpdate.isHeartbeat ping = Some true
  /\ UnityStatus.lastUpdated (mergeUnityStatus (at_time 60000) first_write ping)
     = UnityStatus.lastUpdated first_write
  /\ laterb (UnityStatus.lastUpdated (mergeUnityStatus (at_time 60000) first_write ping))
            (UnityStatus.lastUpdated first_write) = false.
Proof. repeat split. Qed.

(** C4: an update that sets [state] only leaves every other scalar member
    as the previous record has it. *)
Theorem C4_state_only_keeps_scalars amb previous st :
  let next := mergeUnityStatus amb previous (state_only st) in
  UnityStatus.currentTask next = UnityStatus.currentTask previous
  /\ UnityStatus.activityType next = UnityStatus.activityType previous
  /\ UnityStatus.sceneName next = UnityStatus.sceneName previous
  /\ UnityStatus.unityVersion next = UnityStatus.unityVersion previous
  /\ UnityStatus.isPlayMode next = UnityStatus.isPlayMode previous
  /\ UnityStatus.totalTodayHours next = UnityStatus.totalTodayHours previous
  /\ UnityStatus.totalWeekHours next = UnityStatus.totalWeekHours previous
  /\ UnityStatus.productiveStreak next = UnityStatus.productiveStreak previous.
Proof.
  cbn. repeat split.
Qed.

End MergeClaims.

(** ** The state access layer and the routes *)

Section StoreFacts.
Import Worker Scenario.

(** Reading never throws. *)
Lemma readFromKV_returns key w :
  exists w' stored, readFromKV key w = (w', Returned stored).
Proof.
  unfold readFromKV, bound_for.
  destruct (String.eqb key UNITY_STATUS_KEY) eqn:Hu;
    destruct (UNITY_STATUS_KV (env w)) as [kv|]; try (eexists _, _; reflexivity);
    destruct (String.eqb key LATEST_COMMIT_KEY) eqn:Hc;
    destruct (COMMIT_CACHE_KV (env w)) as [kv'|]; try (eexists _, _; reflexivity);
    unfold bind, the_cache, ret; destruct (DEV_PORTAL_CACHE w);
    rewrite ?Hu, ?Hc; eexists _, _; reflexivity.
Qed.

Lemma read_unity_status_returns w :
  exists w' current, read_unity_status w = (w', Returned current).
Proof.
  unfold read_unity_status, bind.
  destruct (readFromKV_returns UNITY_STATUS_KEY w) as (w' & stored & ->).
  eexists _, _. reflexivity.
Qed.

(** What is written under the status key is what is read next, and that
    read leaves the world as it is. *)
Lemma write_read_unity_status u w :
  exists w',
    writeToKV UNITY_STATUS_KEY (StoredUnityStatus u) w = (w', Returned tt)
    /\ read_unity_status w' = (w', Returned u).
Proof.
  unfold writeToKV, read_unity_status, readFromKV, bound_for.
  change (String.eqb UNITY_STATUS_KEY UNITY_STATUS_KEY) with true.
  change (String.eqb UNITY_STATUS_KEY LATEST_COMMIT_KEY) with false.
  cbv iota.
  destruct w as [[kv ckv url] cache out]. cbn [env UNITY_STATUS_KV COMMIT_CACHE_KV].
  destruct kv as [kv|].
  - eexists. split; [reflexivity|].
    unfold bind, ret. cbn [env UNITY_STATUS_KV].
    rewrite lookup_insert_eq. reflexivity.
  - destruct cache as [cache|]; eexists; (split; [reflexivity|]); reflexivity.
Qed.

Lemma write_read_latest_commit c w :
  exists w',
    writeToKV LATEST_COMMIT_KEY (StoredLatestCommit c) w = (w', Returned tt)
    /\ get_api_latest_commit w' = (w', Returned (Some c)).
Proof.
  unfold writeToKV, get_api_latest_commit, readFromKV, bound_for.
  change (String.eqb LATEST_COMMIT_KEY UNITY_STATUS_KEY) with false.
  change (String.eqb LATEST_COMMIT_KEY LATEST_COMMIT_KEY) with true.
  cbv iota.
  destruct w as [[kv ckv url] cache out]. cbn [env UNITY_STATUS_KV COMMIT_CACHE_KV].
  destruct ckv as [ckv|].
  - eexists. split; [reflexivity|].
    unfold bind, ret. cbn [env COMMIT_CACHE_KV].
    rewrite lookup_insert_eq. reflexivity.
  - destruct cache as [cache|]; eexists; (split; [reflexivity|]); reflexivity.
Qed.

(** A valid update is merged into the record read, written back and
    answered; the next GET answers the same record. *)
Lemma post_api_unity_status_valid amb payload w :
  valid payload = true ->
  exists w1 current w2,
    read_unity_status w = (w1, Returned current)
    /\ post_api_unity_status amb payload w
       = (w2, Returned (mergeUnityStatus amb current payload))
    /\ get_api_unity_status w2 = (w2, Returned (mergeUnityStatus amb current payload)).
Proof.
  intros Hvalid.
  destruct (read_unity_status_returns w) as (w1 & current & Hread).
  destruct (write_read_unity_status (mergeUnityStatus amb current payload) w1)
    as (w2 & Hwrite & Hget).
  exists w1, current, w2. split; [exact Hread|]. split; [|exact Hget].
  unfold post_api_unity_status, validateUnityPayload.
  unfold valid in Hvalid. rewrite Hvalid. cbn [negb].
  unfold bind at 1. unfold ret at 1.
  unfold bind at 1. rewrite Hread.
  unfold bind at 1. rewrite Hwrite. reflexivity.
Qed.

Lemma readFromKV_env key w : env (fst (readFromKV key w)) = env w.
Proof.
  unfold readFromKV.
  destruct (bound_for (UNITY_STATUS_KV (env w)) key UNITY_STATUS_KEY); [reflexivity|].
  destruct (bound_for (COMMIT_CACHE_KV (env w)) key LATEST_COMMIT_KEY); [reflexivity|].
  unfold bind, the_cache, ret.
  destruct (DEV_PORTAL_CACHE w);
    destruct (String.eqb key UNITY_STATUS_KEY);
    destruct (String.eqb key LATEST_COMMIT_KEY); reflexivity.
Qed.

Lemma write_unity_status_keeps_kinds u w :
  well_kinded (env w) ->
  well_kinded (env (fst (writeToKV UNITY_STATUS_KEY (StoredUnityStatus u) w))).
Proof.
  intros [Hstatus Hcommit].
  unfold writeToKV, bound_for.
  change (String.eqb UNITY_STATUS_KEY UNITY_STATUS_KEY) with true.
  change (String.eqb UNITY_STATUS_KEY LATEST_COMMIT_KEY) with false.
  cbv iota.
  destruct (UNITY_STATUS_KV (env w)) as [kv|] eqn:Hkv.
  - split; cbn.
    + intros kv' value [= <-]. rewrite lookup_insert_eq. intros [= <-]. eauto.
    + exact Hcommit.
  - unfold bind, the_cache, set_cache, ret.
    destruct (DEV_PORTAL_CACHE w); cbn; (split; [rewrite Hkv; intros ? ? [=] | exact Hcommit]).
Qed.

Lemma write_latest_commit_keeps_kinds c w :
  well_kinded (env w) ->
  well_kinded (env (fst (writeToKV LATEST_COMMIT_KEY (StoredLatestCommit c) w))).
Proof.
  intros [Hstatus Hcommit].
  unfold writeToKV, bound_for.
  change (String.eqb LATEST_COMMIT_KEY UNITY_STATUS_KEY) with false.
  change (String.eqb LATEST_COMMIT_KEY LATEST_COMMIT_KEY) with true.
  cbv iota.
  destruct (COMMIT_CACHE_KV (env w)) as [kv|] eqn:Hkv.
  - split; cbn.
    + exact Hstatus.
    + intros kv' value [= <-]. rewrite lookup_insert_eq. intros [= <-]. eauto.
  - unfold bind, the_cache, set_cache, ret.
    destruct (DEV_PORTAL_CACHE w); cbn; (split; [exact Hstatus | rewrite Hkv; intros ? ? [=]]).
Qed.

(** Every route leaves each namespace with documents of its kind. *)
Lemma routes_keep_kinds amb w :
  well_kinded (env w) ->
  well_kinded (env (fst (get_api_unity_status w)))
  /\ well_kinded (env (fst (get_api_latest_commit w)))
  /\ (forall payload, well_kinded (env (fst (post_api_unity_status amb payload w))))
  /\ (forall payload, well_kinded (env (fst (post_api_github_webhook amb payload w))))
  /\ (forall body, well_kinded (env (fst (post_api_trigger_notification amb body w)))).
Proof.
  intros Hw. split; [|split; [|split; [|split]]].
  - unfold get_api_unity_status, read_unity_status, bind.
    pose proof (readFromKV_env UNITY_STATUS_KEY w) as He.
    destruct (readFromKV UNITY_STATUS_KEY w) as [w' [stored|e]]; cbn in *; rewrite He; apply Hw.
  - unfold get_api_latest_commit, bind.
    pose proof (readFromKV_env LATEST_COMMIT_KEY w) as He.
    destruct (readFromKV LATEST_COMMIT_KEY w) as [w' [stored|e]]; cbn in *; rewrite He; apply Hw.
  - intros payload. destruct (valid payload) eqn:Hvalid.
    + destruct (post_api_unity_status_valid amb payload w Hvalid)
        as (w1 & current & w2 & Hread & Hpost & _).
      rewrite Hpost. cbn [fst].
      destruct (write_read_unity_status (mergeUnityStatus amb current payload) w1)
        as (w2' & Hwrite & _).
      unfold post_api_unity_status, validateUnityPayload in Hpost.
      unfold valid in Hvalid. rewrite Hvalid in Hpost. cbn [negb] in Hpost.
      unfold bind at 1 in Hpost. unfold ret at 1 in Hpost.
      unfold bind at 1 in Hpost. rewrite Hread in Hpost.
      unfold bind at 1 in Hpost. rewrite Hwrite in Hpost.
      injection Hpost as <-.
      pose proof (write_unity_status_keeps_kinds (mergeUnityStatus amb current payload) w1)
        as Hkeep.
      rewrite Hwrite in Hkeep. apply Hkeep.
      unfold read_unity_status, bind in Hread.
      pose proof (readFromKV_env UNITY_STATUS_KEY w) as He.
      destruct (readFromKV UNITY_STATUS_KEY w) as [w0 [stored|e]]; [|discriminate Hread].
      injection Hread as <- _. cbn [fst] in He. rewrite He. exact Hw.
    + unfold post_api_unity_status, validateUnityPayload.
      unfold valid in Hvalid. rewrite Hvalid. exact Hw.
  - intros payload. unfold post_api_github_webhook.
    destruct payload as [[ref repository [head_commit|]]|]; cbn [GitHubWebhookPayload.head_commit];
      try exact Hw.
    set (c := normalize amb _ head_commit).
    pose proof (write_latest_commit_keeps_kinds c w Hw) as Hkeep.
    unfold bind.
    destruct (writeToKV LATEST_COMMIT_KEY (StoredLatestCommit c) w) as [w' [[]|e]];
      exact Hkeep.
  - intros body. unfold post_api_trigger_notification.
    destruct body as [b|]; [|exact Hw].
    destruct (negb (Js.truthy (NotificationBody.channel b))
              || negb (Js.truthy (NotificationBody.message b))); [exact Hw|].
    unfold bind, fetch_post, ret.
    destruct (Js.truthy (N8N_WEBHOOK_URL (env w))); [|exact Hw].
    destruct (fetch amb _); exact Hw.
Qed.

Lemma deployed_is_well_kinded : well_kinded (env deployed).
Proof.
  split; intros kv value [= <-]; rewrite lookup_empty; discriminate.
Qed.

Lemma routes_keep_kinds_when_deployed :
  well_kinded (env (fst (get_api_unity_status deployed)))
  /\ well_kinded (env (fst (get_api_latest_commit deployed)))
  /\ (forall payload,
       well_kinded (env (fst (post_api_unity_status (at_time 60000) payload deployed))))
  /\ (forall payload,
       well_kinded (env (fst (post_api_github_webhook (at_time 60000) payload deployed))))
  /\ (forall body,
       well_kinded (env (fst (post_api_trigger_notification (at_time 60000) body deployed)))).
Proof.
  apply (routes_keep_kinds (at_time 60000) deployed). exact deployed_is_well_kinded.
Defined.

End StoreFacts.

Section RouteClaims.
Import Worker Scenario.

(** C5: an update whose state is none of working, break and offline is
    answered with the 400 exception of the validation; nothing is read,
    merged or written: the world, and with it the stored record and what
    a GET answers, is what it was. *)
Theorem C5_invalid_state_rejected amb payload w :
  valid payload = false ->
  post_api_unity_status amb payload w
  = (w, Threw (HTTPException 400 "Invalid Unity status state"))
  /\ get_api_unity_status (fst (post_api_unity_status amb payload w))
     = get_api_unity_status w.
Proof.
  intros Hinvalid.
  assert (Hpost : post_api_unity_status amb payload w
                  = (w, Threw (HTTPException 400 "Invalid Unity status state"))).
  { unfold post_api_unity_status, validateUnityPayload.
    unfold valid in Hinvalid. rewrite Hinvalid. reflexivity. }
  split; [exact Hpost|]. rewrite Hpost. reflexivity.
Qed.

Lemma C5_paused_is_rejected :
  post_api_unity_status (at_time 60000) (state_only "paused") deployed
  = (deployed, Threw (HTTPException 400 "Invalid Unity status state"))
  /\ get_api_unity_status
       (fst (post_api_unity_status (at_time 60000) (state_only "paused") deployed))
     = get_api_unity_status deployed.
Proof.
  apply (C5_invalid_state_rejected (at_time 60000) (state_only "paused") deployed).
  reflexivity.
Defined.



(** C10: the merged record carries the [isHeartbeat] member of the update
    (and, when the update has none, the one the previous record carried);
    for a valid update with the flag, the record that POST stores and
    answers, and that the next GET answers, has it. *)
Theorem C10_isHeartbeat_is_stored amb previous payload w b :
  valid payload = true ->
  UnityStatusUpdate.isHeartbeat payload = Some b ->
  UnityStatus.isHeartbeat (mergeUnityStatus amb previous payload) = Some b
  /\ exists w' stored,
      post_api_unity_status amb payload w = (w', Returned stored)
      /\ UnityStatus.isHeartbeat stored = Some b
      /\ get_api_unity_status w' = (w', Returned stored).
Proof.
  intros Hvalid Hflag. split.
  - rewrite merge_isHeartbeat, Hflag. reflexivity.
  - destruct (post_api_unity_status_valid amb payload w Hvalid)
      as (w1 & current & w2 & _ & Hpost & Hget).
    exists w2, (mergeUnityStatus amb current payload).
    split; [exact Hpost|]. split; [|exact Hget].
    rewrite merge_isHeartbeat, Hflag. reflexivity.
Qed.

Lemma C10_ping_is_stored_with_its_flag :
  UnityStatus.isHeartbeat (mergeUnityStatus (at_time 120000) first_write ping) = Some true
  /\ exists w' stored,
      post_api_unity_status (at_time 120000) ping deployed = (w', Returned stored)
      /\ UnityStatus.isHeartbeat stored = Some true
      /\ get_api_unity_status w' = (w', Returned stored).
Proof.
  apply (C10_isHeartbeat_is_stored (at_time 120000) first_write ping deployed true);
    reflexivity.
Defined.

(** An update without the flag leaves the flag of the previous record on
    the merged one. *)
Lemma merge_keeps_previous_isHeartbeat amb previous update :
  UnityStatusUpdate.isHeartbeat update = None ->
  UnityStatus.isHeartbeat (mergeUnityStatus amb previous update)
  = UnityStatus.isHeartbeat previous.
Proof.
  intros Hnone. rewrite merge_isHeartbeat, Hnone. reflexivity.
Qed.

Lemma event_after_ping_keeps_the_flag :
  UnityStatus.isHeartbeat
    (mergeUnityStatus (at_time 180000)
       (mergeUnityStatus (at_time 120000) first_write ping) (state_only "break"))
  = UnityStatus.isHeartbeat (mergeUnityStatus (at_time 120000) first_write ping).
Proof.
  apply (merge_keeps_previous_isHeartbeat (at_time 180000)
           (mergeUnityStatus (at_time 120000) first_write ping) (state_only "break")).
  reflexivity.
Defined.

End RouteClaims.

(** ** Commit normalisation and the notification relay *)

Section WebhookClaims.
Import Worker Scenario.

Lemma replace_prefix_refs_heads b :
  Js.replace "refs/heads/" "" ("refs/heads/" +:+ b) = b.
Proof. reflexivity. Qed.

(** [replace] takes out the first occurrence wherever it stands. *)
Example replace_inner_refs_heads :
  Js.replace "refs/heads/" "" "refs/tags/refs/heads/x" = "refs/tags/x".
Proof. reflexivity. Qed.

(** A ref that holds "refs/heads/" further in loses it there. *)
Lemma branch_of_nested_ref amb repository head_commit :
  LatestCommit.branch
    (normalize amb
       (GitHubWebhookPayload.mk (Some "refs/tags/refs/heads/x") repository (Some head_commit))
       head_commit)
  = Some "refs/tags/x".
Proof. reflexivity. Qed.

Example replace_tag_ref :
  Js.replace "refs/heads/" "" "refs/tags/v1.0" = "refs/tags/v1.0".
Proof. reflexivity. Qed.

(** C7: the push route throws its 400 exception exactly when the payload
    has no head commit; for a head commit with only [id] set, the commit
    that is stored and served next has the fallbacks: the message "No
    commit message", the author "Unknown", the URL of the repository or
    else the empty string, the clock reading as [committedAt], and as
    branch the ref with "refs/heads/" taken out, none when there is no
    ref. *)
Theorem C7_commit_normalisation amb payload w ref repository i :
  (snd (post_api_github_webhook amb payload w)
   = Threw (HTTPException 400 "Missing head_commit in GitHub payload")
   <-> payload ≫= GitHubWebhookPayload.head_commit = None)
  /\ exists w' commit,
      post_api_github_webhook amb
        (Some (GitHubWebhookPayload.mk ref repository (Some (only_id i)))) w
      = (w', Returned true)
      /\ get_api_latest_commit w' = (w', Returned (Some commit))
      /\ LatestCommit.id commit = i
      /\ LatestCommit.message commit = "No commit message"
      /\ LatestCommit.author commit = "Unknown"
      /\ LatestCommit.url commit = Js.nullish (repository ≫= Repository.html_url) ""
      /\ LatestCommit.committedAt commit = toISOString (new_Date amb)
      /\ LatestCommit.branch commit = (Js.replace "refs/heads/" "" <$> ref)
      /\ (ref = None -> LatestCommit.branch commit = None)
      /\ (forall b, ref = Some ("refs/heads/" +:+ b) -> LatestCommit.branch commit = Some b).
Proof.
  split.
  - unfold post_api_github_webhook.
    destruct payload as [[ref' repository' [head_commit|]]|]; cbn.
    + destruct (write_read_latest_commit
                  (normalize amb (GitHubWebhookPayload.mk ref' repository' (Some head_commit))
                             head_commit) w) as (w' & Hwrite & _).
      unfold bind. rewrite Hwrite. cbn. split; discriminate.
    + split; reflexivity.
    + split; reflexivity.
  - set (p := GitHubWebhookPayload.mk ref repository (Some (only_id i))).
    destruct (write_read_latest_commit (normalize amb p (only_id i)) w)
      as (w' & Hwrite & Hget).
    exists w', (normalize amb p (only_id i)).
    split.
    { unfold post_api_github_webhook. cbn [GitHubWebhookPayload.head_commit p].
      unfold bind. rewrite Hwrite. reflexivity. }
    split; [exact Hget|].
    cbn. repeat split.
    + intros ->. reflexivity.
    + intros b ->. reflexivity.
Qed.

Lemma C7_push_to_main_with_only_an_id :
  (snd (post_api_github_webhook (at_time 60000) None deployed)
   = Threw (HTTPException 400 "Missing head_commit in GitHub payload"))
  /\ exists w' commit,
      post_api_github_webhook (at_time 60000)
        (Some (GitHubWebhookPayload.mk (Some ("refs/heads/" +:+ "main")) None
                                       (Some (only_id "4f2a9c1")))) deployed
      = (w', Returned true)
      /\ get_api_latest_commit w' = (w', Returned (Some commit))
      /\ LatestCommit.message commit = "No commit message"
      /\ LatestCommit.url commit = ""
      /\ LatestCommit.branch commit = Some "main".
Proof.
  destruct (C7_commit_normalisation (at_time 60000) None deployed
              (Some ("refs/heads/" +:+ "main")) None "4f2a9c1")
    as (Hthrows & w' & commit & Hpost & Hget & _ & Hmsg & _ & Hurl & _ & _ & _ & Hbranch).
  split; [apply Hthrows; reflexivity|].
  exists w', commit. split; [exact Hpost|]. split; [exact Hget|].
  split; [exact Hmsg|]. split; [exact Hurl|].
  apply Hbranch. reflexivity.
Defined.

(** C8, as the code has it: for a body whose channel and message are
    non-empty strings the relay answers [delivered: true]; with no webhook
    URL (none, or the empty string) it makes no outbound call and answers
    [forwardedToAutomation: false]; with a URL it makes one POST to it and
    answers [forwardedToAutomation] as the [ok] of the response; when the
    call ends without a response, the rejection leaves the route as an
    exception and no body is answered. *)
Theorem C8_relay amb body w :
  Js.truthy (NotificationBody.channel body) = true ->
  Js.truthy (NotificationBody.message body) = true ->
  (Js.truthy (N8N_WEBHOOK_URL (env w)) = false ->
   post_api_trigger_notification amb (Some body) w
   = (w, Returned {| delivered := true; forwardedToAutomation := false |}))
  /\ (forall url,
       N8N_WEBHOOK_URL (env w) = Some url ->
       Js.truthy (Some url) = true ->
       exists w',
         outbound w'
         = {| request_url := url; request_method := "POST";
              request_content_type := "application/json"; request_body := body |}
           :: outbound w
         /\ env w' = env w
         /\ DEV_PORTAL_CACHE w' = DEV_PORTAL_CACHE w
         /\ post_api_trigger_notification amb (Some body) w
            = (w', match fetch amb url with
                   | Responded ok =>
                       Returned {| delivered := true; forwardedToAutomation := ok |}
                   | Rejected => Threw FetchRejection
                   end)).
Proof.
  intros Hchannel Hmessage. unfold post_api_trigger_notification.
  rewrite Hchannel, Hmessage. cbn [negb orb]. split.
  - intros Hnone. rewrite Hnone. reflexivity.
  - intros url Hurl Htruthy. rewrite Hurl, Htruthy. cbn [Js.nullish].
    unfold bind, fetch_post.
    eexists. split; [|split; [|split]]; cycle 3.
    + destruct (fetch amb url); reflexivity.
    + reflexivity.
    + reflexivity.
    + reflexivity.
Qed.

Lemma C8_relay_with_and_without_url :
  post_api_trigger_notification (at_time 60000) (Some alert) local_dev
  = (local_dev, Returned {| delivered := true; forwardedToAutomation := false |})
  /\ exists w',
      outbound w'
      = [{| request_url := "https://n8n.example/webhook/dev"; request_method := "POST";
            request_content_type := "application/json"; request_body := alert |}]
      /\ post_api_trigger_notification (at_time 60000) (Some alert) deployed
         = (w', Returned {| delivered := true; forwardedToAutomation := true |}).
Proof.
  split.
  - apply (C8_relay (at_time 60000) alert local_dev); reflexivity.
  - destruct (C8_relay (at_time 60000) alert deployed eq_refl eq_refl) as [_ Hurl].
    destruct (Hurl "https://n8n.example/webhook/dev" eq_refl eq_refl)
      as (w' & Hout & _ & _ & Hpost).
    exists w'. split; [exact Hout | exact Hpost].
Defined.

(** C8 as stated fails when the configured webhook cannot be reached:
    channel and message are present, a URL is configured, the call is
    made, and the route ends in the rejection of [fetch] instead of a body
    with [delivered: true] and [forwardedToAutomation: false]. *)
Lemma C8_unreachable_webhook_throws :
  Js.truthy (NotificationBody.channel alert) = true
  /\ Js.truthy (NotificationBody.message alert) = true
  /\ Js.truthy (N8N_WEBHOOK_URL (env deployed)) = true
  /\ snd (post_api_trigger_notification (unreachable_at 60000) (Some alert) deployed)
     = Threw FetchRejection.
Proof. repeat split. Qed.

(** A channel that is present but empty is answered with the 400
    exception. *)
Example empty_channel_is_rejected :
  snd (post_api_trigger_notification (at_time 60000)
         (Some (NotificationBody.mk (Some "") None (Some "Build finished"))) deployed)
  = Threw (HTTPException 400 "channel and message are required").
Proof. reflexivity. Qed.

End WebhookClaims.

(** ** Staleness on the dashboard *)

Section BadgeClaims.
Import ReactApp.

Lemma stale_spec now unityStatus :
  stale now unityStatus = true
  <-> getTime (UnityStatus.lastUpdated unityStatus) = None
      \/ exists t, getTime (UnityStatus.lastUpdated unityStatus) = Some t
                   /\ 10 * 60 * 1000 < now - t.
Proof.
  unfold stale, Number_isFinite, elapsed_exceeds.
  destruct (getTime (UnityStatus.lastUpdated unityStatus)) as [t|]; cbn [negb orb].
  - rewrite Z.ltb_lt. split.
    + intros Hlt. right. exists t. split; [reflexivity | exact Hlt].
    + intros [Hnone | (t' & Ht' & Hlt)]; [discriminate Hnone|].
      injection Ht' as ->. exact Hlt.
  - split; [intros _; left; reflexivity | reflexivity].
Qed.

(** C9: the badge is a function of the state, of [lastUpdated] and of
    the clock reading alone; a record whose [lastUpdated] is a date is
    stale exactly when that date lies more than ten minutes before the
    clock reading; a stale record is drawn as offline whatever its state,
    with the heartbeat note, and any other record is drawn in its own
    state; at eleven minutes the record is stale and drawn offline, at
    nine minutes it is not. *)
Theorem C9_staleness now unityStatus t :
  UnityStatus.lastUpdated unityStatus = toISOString t ->
  (forall other,
     UnityStatus.state other = UnityStatus.state unityStatus ->
     UnityStatus.lastUpdated other = UnityStatus.lastUpdated unityStatus ->
     derivedUnityBadge now other = derivedUnityBadge now unityStatus)
  /\ (stale now unityStatus = true <-> 10 * 60 * 1000 < now - t)
  /\ (stale now unityStatus = true ->
      baseState now unityStatus = offline
      /\ derivedUnityBadge now unityStatus
         = unityActivityBadges offline +:+ " • last heartbeat >10m")
  /\ (stale now unityStatus = false ->
      baseState now unityStatus = UnityStatus.state unityStatus
      /\ derivedUnityBadge now unityStatus
         = unityActivityBadges (UnityStatus.state unityStatus))
  /\ (now - t = 11 * 60 * 1000 ->
      stale now unityStatus = true /\ baseState now unityStatus = offline)
  /\ (now - t = 9 * 60 * 1000 ->
      stale now unityStatus = false
      /\ baseState now unityStatus = UnityStatus.state unityStatus).
Proof.
  intros Hstamp.
  assert (Hstale : stale now unityStatus = (10 * 60 * 1000 <? now - t)).
  { unfold stale. rewrite Hstamp. reflexivity. }
  split; [|split; [|split; [|split; [|split]]]].
  - intros other Hstate Hother.
    unfold derivedUnityBadge, baseState, stale. rewrite Hstate, Hother. reflexivity.
  - rewrite Hstale. apply Z.ltb_lt.
  - intros Hold. unfold derivedUnityBadge, baseState. rewrite Hold.
    split; reflexivity.
  - intros Hfresh. unfold derivedUnityBadge, baseState. rewrite Hfresh.
    split; [reflexivity|].
    destruct (UnityStatus.state unityStatus); reflexivity.
  - intros Heleven. unfold baseState. rewrite Hstale, Heleven. split; reflexivity.
  - intros Hnine. unfold baseState. rewrite Hstale, Hnine. split; reflexivity.
Qed.

Lemma C9_eleven_and_nine_minutes :
  (stale (11 * 60 * 1000) (working_since (toISOString 0)) = true
   /\ baseState (11 * 60 * 1000) (working_since (toISOString 0)) = offline
   /\ derivedUnityBadge (11 * 60 * 1000) (working_since (toISOString 0))
      = unityActivityBadges offline +:+ " • last heartbeat >10m")
  /\ (stale (9 * 60 * 1000) (working_since (toISOString 0)) = false
      /\ baseState (9 * 60 * 1000) (working_since (toISOString 0)) = working
      /\ derivedUnityBadge (9 * 60 * 1000) (working_since (toISOString 0))
         = unityActivityBadges working).
Proof.
  split.
  - destruct (C9_staleness (11 * 60 * 1000) (working_since (toISOString 0)) 0 eq_refl)
      as (_ & _ & Hoffline & _ & Heleven & _).
    destruct (Heleven eq_refl) as [Hstale Hbase].
    split; [exact Hstale|]. split; [exact Hbase|].
    apply Hoffline. exact Hstale.
  - destruct (C9_staleness (9 * 60 * 1000) (working_since (toISOString 0)) 0 eq_refl)
      as (_ & _ & _ & Hown & _ & Hnine).
    destruct (Hnine eq_refl) as [Hfresh Hbase].
    split; [exact Hfresh|]. split; [exact Hbase|].
    apply Hown. exact Hfresh.
Defined.

(** The guard of [derivedUnityBadge] on a [lastUpdated] that is no date:
    such a record is stale and drawn as offline at every clock reading.
    The worker writes dates only. *)
Lemma unreadable_stamp_is_stale now unityStatus :
  getTime (UnityStatus.lastUpdated unityStatus) = None ->
  stale now unityStatus = true /\ baseState now unityStatus = offline.
Proof.
  intros Hnone. unfold baseState, stale. rewrite Hnone. split; reflexivity.
Qed.

End BadgeClaims.

(** ** The worker over runs of requests *)

Section ServerFacts.
Import Worker Scenario Server.

(** Reading the status: the answer is what is held, or the default; the
    read changes nothing that is held, configured or sent. *)
Lemma read_unity_status_held w :
  exists w',
    read_unity_status w = (w', Returned (Js.nullish (held_status w) defaultUnityStatus))
    /\ env w' = env w
    /\ held_status w' = held_status w
    /\ held_commit w' = held_commit w
    /\ outbound w' = outbound w.
Proof.
  unfold read_unity_status, readFromKV, bound_for, held_status, held_commit.
  change (String.eqb UNITY_STATUS_KEY UNITY_STATUS_KEY) with true.
  change (String.eqb UNITY_STATUS_KEY LATEST_COMMIT_KEY) with false.
  cbv iota.
  destruct w as [[kv ckv url] cache out]. cbn [env UNITY_STATUS_KV COMMIT_CACHE_KV
    DEV_PORTAL_CACHE outbound].
  destruct kv as [kv|].
  - eexists. split; [reflexivity|]. repeat split.
  - destruct cache as [cache|].
    + unfold bind, the_cache, ret. cbn.
      destruct (unityStatus cache) eqn:Hheld; (eexists; split; [reflexivity|]);
        cbn; rewrite ?Hheld; repeat split.
    + eexists. split; [reflexivity|]. cbn. repeat split.
Qed.

Lemma get_api_latest_commit_held w :
  exists w',
    get_api_latest_commit w = (w', Returned (held_commit w))
    /\ env w' = env w
    /\ held_status w' = held_status w
    /\ held_commit w' = held_commit w
    /\ outbound w' = outbound w.
Proof.
  unfold get_api_latest_commit, readFromKV, bound_for, held_status, held_commit.
  change (String.eqb LATEST_COMMIT_KEY UNITY_STATUS_KEY) with false.
  change (String.eqb LATEST_COMMIT_KEY LATEST_COMMIT_KEY) with true.
  cbv iota.
  destruct w as [[kv ckv url] cache out]. cbn [env UNITY_STATUS_KV COMMIT_CACHE_KV
    DEV_PORTAL_CACHE outbound].
  destruct ckv as [ckv|].
  - eexists. split; [reflexivity|]. repeat split.
  - destruct cache as [cache|].
    + unfold bind, the_cache, ret. cbn.
      destruct (latestCommit cache) eqn:Hheld; (eexists; split; [reflexivity|]);
        cbn; rewrite ?Hheld; repeat split.
    + eexists. split; [reflexivity|]. cbn. repeat split.
Qed.

Lemma write_unity_status_held u w :
  exists w',
    writeToKV UNITY_STATUS_KEY (StoredUnityStatus u) w = (w', Returned tt)
    /\ held_status w' = Some u
    /\ held_commit w' = held_commit w
    /\ N8N_WEBHOOK_URL (env w') = N8N_WEBHOOK_URL (env w)
    /\ outbound w' = outbound w.
Proof.
  unfold writeToKV, bound_for, held_status, held_commit.
  change (String.eqb UNITY_STATUS_KEY UNITY_STATUS_KEY) with true.
  change (String.eqb UNITY_STATUS_KEY LATEST_COMMIT_KEY) with false.
  cbv iota.
  destruct w as [[kv ckv url] cache out]. cbn [env UNITY_STATUS_KV COMMIT_CACHE_KV
    DEV_PORTAL_CACHE outbound].
  destruct kv as [kv|].
  - eexists. split; [reflexivity|]. cbn. rewrite lookup_insert_eq. repeat split.
  - destruct cache as [cache|]; (eexists; split; [reflexivity|]); cbn; repeat split.
Qed.

Lemma write_latest_commit_held c w :
  exists w',
    writeToKV LATEST_COMMIT_KEY (StoredLatestCommit c) w = (w', Returned tt)
    /\ held_status w' = held_status w
    /\ held_commit w' = Some c
    /\ N8N_WEBHOOK_URL (env w') = N8N_WEBHOOK_URL (env w)
    /\ outbound w' = outbound w.
Proof.
  unfold writeToKV, bound_for, held_status, held_commit.
  change (String.eqb LATEST_COMMIT_KEY UNITY_STATUS_KEY) with false.
  change (String.eqb LATEST_COMMIT_KEY LATEST_COMMIT_KEY) with true.
  cbv iota.
  destruct w as [[kv ckv url] cache out]. cbn [env UNITY_STATUS_KV COMMIT_CACHE_KV
    DEV_PORTAL_CACHE outbound].
  destruct ckv as [ckv|].
  - eexists. split; [reflexivity|]. cbn. rewrite lookup_insert_eq. repeat split.
  - destruct cache as [cache|]; (eexists; split; [reflexivity|]); cbn; repeat split.
Qed.

Lemma served_status_held w :
  served_status w = Js.nullish (held_status w) defaultUnityStatus.
Proof.
  unfold served_status, get_api_unity_status.
  destruct (read_unity_status_held w) as (w' & -> & _). reflexivity.
Qed.

Lemma served_commit_held w : served_commit w = held_commit w.
Proof.
  unfold served_commit.
  destruct (get_api_latest_commit_held w) as (w' & -> & _). reflexivity.
Qed.

(** What each route does to what is held and sent. *)
Lemma post_api_unity_status_held amb payload w :
  valid payload = true ->
  exists w',
    post_api_unity_status amb payload w
    = (w', Returned (mergeUnityStatus amb (served_status w) payload))
    /\ held_status w' = Some (mergeUnityStatus amb (served_status w) payload)
    /\ held_commit w' = held_commit w
    /\ N8N_WEBHOOK_URL (env w') = N8N_WEBHOOK_URL (env w)
    /\ outbound w' = outbound w.
Proof.
  intros Hvalid. rewrite served_status_held.
  destruct (read_unity_status_held w) as (w1 & Hread & Henv & Hs1 & Hc1 & Ho1).
  destruct (write_unity_status_held
              (mergeUnityStatus amb (Js.nullish (held_status w) defaultUnityStatus) payload) w1)
    as (w2 & Hwrite & Hs2 & Hc2 & Hu2 & Ho2).
  exists w2. split.
  - unfold post_api_unity_status, validateUnityPayload.
    unfold valid in Hvalid. rewrite Hvalid. cbn [negb].
    unfold bind at 1. unfold ret at 1.
    unfold bind at 1. rewrite Hread.
    unfold bind at 1. rewrite Hwrite. reflexivity.
  - rewrite Hs2, Hc2, Hu2, Ho2, Hc1, Ho1, Henv. repeat split.
Qed.

Lemma post_api_unity_status_invalid amb payload w :
  valid payload = false ->
  post_api_unity_status amb payload w
  = (w, Threw (HTTPException 400 "Invalid Unity status state")).
Proof.
  intros Hinvalid. unfold post_api_unity_status, validateUnityPayload.
  unfold valid in Hinvalid. rewrite Hinvalid. reflexivity.
Qed.

Lemma post_api_github_webhook_held amb p head_commit w :
  GitHubWebhookPayload.head_commit p = Some head_commit ->
  exists w',
    post_api_github_webhook amb (Some p) w = (w', Returned true)
    /\ held_status w' = held_status w
    /\ held_commit w' = Some (normalize amb p head_commit)
    /\ N8N_WEBHOOK_URL (env w') = N8N_WEBHOOK_URL (env w)
    /\ outbound w' = outbound w.
Proof.
  intros Hhead.
  destruct (write_latest_commit_held (normalize amb p head_commit) w)
    as (w' & Hwrite & Hs & Hc & Hu & Ho).
  exists w'. split; [|repeat split; assumption].
  unfold post_api_github_webhook. rewrite Hhead.
  unfold bind. rewrite Hwrite. reflexivity.
Qed.

Lemma post_api_github_webhook_missing amb payload w :
  payload ≫= GitHubWebhookPayload.head_commit = None ->
  post_api_github_webhook amb payload w
  = (w, Threw (HTTPException 400 "Missing head_commit in GitHub payload")).
Proof.
  unfold post_api_github_webhook.
  destruct payload as [p|]; cbn; [|reflexivity].
  intros ->. reflexivity.
Qed.

(** The relay leaves the bindings and the cache alone and makes at most
    one call. *)
Lemma post_api_trigger_notification_frame amb body w :
  env (fst (post_api_trigger_notification amb body w)) = env w
  /\ DEV_PORTAL_CACHE (fst (post_api_trigger_notification amb body w)) = DEV_PORTAL_CACHE w
  /\ (outbound (fst (post_api_trigger_notification amb body w)) = outbound w
      \/ exists request,
          outbound (fst (post_api_trigger_notification amb body w))
          = request :: outbound w).
Proof.
  unfold post_api_trigger_notification.
  destruct body as [b|]; [|cbn; auto].
  destruct (negb (Js.truthy (NotificationBody.channel b))
            || negb (Js.truthy (NotificationBody.message b))); [cbn; auto|].
  unfold bind, fetch_post, ret.
  destruct (Js.truthy (N8N_WEBHOOK_URL (env w))); [|cbn; auto].
  destruct (fetch amb _); cbn; eauto.
Qed.

Lemma held_same_bindings w w' :
  env w' = env w -> DEV_PORTAL_CACHE w' = DEV_PORTAL_CACHE w ->
  held_status w' = held_status w /\ held_commit w' = held_commit w.
Proof.
  intros He Hc. unfold held_status, held_commit. rewrite He, Hc. split; reflexivity.
Qed.

(** The world after any request: what is held, by request. *)
Lemma route_held amb r w :
  held_status (fst (route amb r w))
  = match r with
    | PostUnityStatus payload =>
        if valid payload then Some (mergeUnityStatus amb (served_status w) payload)
        else held_status w
    | _ => held_status w
    end
  /\ held_commit (fst (route amb r w))
     = match r with
       | PostGithubWebhook (Some p) =>
           match GitHubWebhookPayload.head_commit p with
           | Some head_commit => Some (normalize amb p head_commit)
           | None => held_commit w
           end
       | _ => held_commit w
       end.
Proof.
  destruct r as [|payload| |payload|body]; unfold route, bind.
  - unfold get_api_unity_status.
    destruct (read_unity_status_held w) as (w' & -> & _ & Hs & Hc & _). cbn. auto.
  - destruct (valid payload) eqn:Hvalid.
    + destruct (post_api_unity_status_held amb payload w Hvalid)
        as (w' & -> & Hs & Hc & _). cbn. auto.
    + rewrite (post_api_unity_status_invalid amb payload w Hvalid). cbn. auto.
  - destruct (get_api_latest_commit_held w) as (w' & -> & _ & Hs & Hc & _). cbn. auto.
  - destruct payload as [p|].
    + destruct (GitHubWebhookPayload.head_commit p) as [head_commit|] eqn:Hhead.
      * destruct (post_api_github_webhook_held amb p head_commit w Hhead)
          as (w' & -> & Hs & Hc & _). cbn. auto.
      * rewrite (post_api_github_webhook_missing amb (Some p) w) by exact Hhead. cbn. auto.
    + rewrite (post_api_github_webhook_missing amb None w) by reflexivity. cbn. auto.
  - destruct (post_api_trigger_notification_frame amb body w) as (He & Hc & _).
    destruct (held_same_bindings w _ He Hc) as [Hs Hk].
    destruct (post_api_trigger_notification amb body w) as [w' [result|e]]; cbn in *; auto.
Qed.

End ServerFacts.

Section ServerProperties.
Import Worker Scenario Server.

Lemma bind_ret_fst {A B : Type} (m : Run A) (f : A -> B) w :
  fst ((x <- m ;; ret (f x)) w) = fst (m w).
Proof. unfold bind, ret. destruct (m w) as [w' [a|e]]; reflexivity. Qed.

Lemma route_world amb r w :
  fst (route amb r w)
  = match r with
    | GetUnityStatus => fst (get_api_unity_status w)
    | PostUnityStatus payload => fst (post_api_unity_status amb payload w)
    | GetLatestCommit => fst (get_api_latest_commit w)
    | PostGithubWebhook payload => fst (post_api_github_webhook amb payload w)
    | PostTriggerNotification body => fst (post_api_trigger_notification amb body w)
    end.
Proof. destruct r; apply bind_ret_fst. Qed.

(** The status and the commit are stored independently: an update of the
    status, accepted or not, leaves the commit that is served as it was,
    and a push, accepted or not, leaves the status that is served as it
    was, whichever of the namespaces are bound. *)
Theorem status_and_commit_are_independent amb w payload push :
  served_commit (fst (post_api_unity_status amb payload w)) = served_commit w
  /\ served_status (fst (post_api_github_webhook amb push w)) = served_status w.
Proof.
  split.
  - rewrite !served_commit_held.
    rewrite <- (route_world amb (PostUnityStatus payload) w).
    apply (route_held amb (PostUnityStatus payload) w).
  - rewrite !served_status_held.
    rewrite <- (route_world amb (PostGithubWebhook push) w).
    destruct (route_held amb (PostGithubWebhook push) w) as [-> _]. reflexivity.
Qed.

Lemma get_routes_frame w :
  (served_status (fst (get_api_unity_status w)) = served_status w
   /\ served_commit (fst (get_api_unity_status w)) = served_commit w
   /\ env (fst (get_api_unity_status w)) = env w
   /\ outbound (fst (get_api_unity_status w)) = outbound w)
  /\ (served_status (fst (get_api_latest_commit w)) = served_status w
      /\ served_commit (fst (get_api_latest_commit w)) = served_commit w
      /\ env (fst (get_api_latest_commit w)) = env w
      /\ outbound (fst (get_api_latest_commit w)) = outbound w).
Proof.
  rewrite !served_status_held, !served_commit_held. split.
  - unfold get_api_unity_status.
    destruct (read_unity_status_held w) as (w' & -> & He & Hs & Hc & Ho).
    cbn [fst]. rewrite Hs, Hc. auto.
  - destruct (get_api_latest_commit_held w) as (w' & -> & He & Hs & Hc & Ho).
    cbn [fst]. rewrite Hs, Hc. auto.
Qed.

(** What a GET does to the in-memory cache: with the namespace of its key
    bound the cache is not touched; without it the cache object is created
    empty when there was none ([??= {}]) and is otherwise left as it was. *)
Lemma get_routes_cache w :
  DEV_PORTAL_CACHE (fst (get_api_unity_status w))
  = match UNITY_STATUS_KV (env w) with
    | Some _ => DEV_PORTAL_CACHE w
    | None =>
        Some (Js.nullish (DEV_PORTAL_CACHE w)
                {| unityStatus := None; latestCommit := None |})
    end
  /\ DEV_PORTAL_CACHE (fst (get_api_latest_commit w))
     = match COMMIT_CACHE_KV (env w) with
       | Some _ => DEV_PORTAL_CACHE w
       | None =>
           Some (Js.nullish (DEV_PORTAL_CACHE w)
                   {| unityStatus := None; latestCommit := None |})
       end.
Proof.
  unfold get_api_unity_status, read_unity_status, get_api_latest_commit,
    readFromKV, bound_for.
  change (String.eqb UNITY_STATUS_KEY UNITY_STATUS_KEY) with true.
  change (String.eqb UNITY_STATUS_KEY LATEST_COMMIT_KEY) with false.
  change (String.eqb LATEST_COMMIT_KEY UNITY_STATUS_KEY) with false.
  change (String.eqb LATEST_COMMIT_KEY LATEST_COMMIT_KEY) with true.
  cbv iota.
  destruct w as [[kv ckv url] cache out].
  cbn [env UNITY_STATUS_KV COMMIT_CACHE_KV DEV_PORTAL_CACHE outbound].
  split.
  - destruct kv as [kv|]; [reflexivity|].
    destruct cache as [cache|]; reflexivity.
  - destruct ckv as [ckv|]; [reflexivity|].
    destruct cache as [cache|]; reflexivity.
Qed.

(** The two GET routes are read-only: after either, both GET routes
    answer what they answered before, the bindings are what they were and
    nothing was sent.  The only thing a GET may create is the empty
    in-memory cache object: the cache afterwards is the cache before, or,
    when there was none and the namespace of the key is not bound, the
    empty object; a cache that exists is never changed. *)
Theorem get_routes_change_nothing w :
  (served_status (fst (get_api_unity_status w)) = served_status w
   /\ served_commit (fst (get_api_unity_status w)) = served_commit w
   /\ env (fst (get_api_unity_status w)) = env w
   /\ outbound (fst (get_api_unity_status w)) = outbound w
   /\ (DEV_PORTAL_CACHE (fst (get_api_unity_status w)) = DEV_PORTAL_CACHE w
       \/ UNITY_STATUS_KV (env w) = None
          /\ DEV_PORTAL_CACHE w = None
          /\ DEV_PORTAL_CACHE (fst (get_api_unity_status w))
             = Some {| unityStatus := None; latestCommit := None |}))
  /\ (served_status (fst (get_api_latest_commit w)) = served_status w
      /\ served_commit (fst (get_api_latest_commit w)) = served_commit w
      /\ env (fst (get_api_latest_commit w)) = env w
      /\ outbound (fst (get_api_latest_commit w)) = outbound w
      /\ (DEV_PORTAL_CACHE (fst (get_api_latest_commit w)) = DEV_PORTAL_CACHE w
          \/ COMMIT_CACHE_KV (env w) = None
             /\ DEV_PORTAL_CACHE w = None
             /\ DEV_PORTAL_CACHE (fst (get_api_latest_commit w))
                = Some {| unityStatus := None; latestCommit := None |}))
  /\ (forall cache,
        DEV_PORTAL_CACHE w = Some cache ->
        fst (get_api_unity_status w) = w /\ fst (get_api_latest_commit w) = w)
  /\ (UNITY_STATUS_KV (env w) <> None -> fst (get_api_unity_status w) = w)
  /\ (COMMIT_CACHE_KV (env w) <> None -> fst (get_api_latest_commit w) = w).
Proof.
  destruct (get_routes_frame w) as ((Hs1 & Hc1 & He1 & Ho1) & (Hs2 & Hc2 & He2 & Ho2)).
  destruct (get_routes_cache w) as [Hk1 Hk2].
  assert (Hworld : forall w1 : World,
             env w1 = env w -> outbound w1 = outbound w ->
             DEV_PORTAL_CACHE w1 = DEV_PORTAL_CACHE w -> w1 = w).
  { intros [e1 c1 o1]. destruct w as [e c o]. cbn. intros -> -> ->. reflexivity. }
  split; [|split; [|split; [|split]]].
  - split; [exact Hs1|]. split; [exact Hc1|]. split; [exact He1|]. split; [exact Ho1|].
    rewrite Hk1. destruct (UNITY_STATUS_KV (env w)); [left; reflexivity|].
    destruct (DEV_PORTAL_CACHE w); [left; reflexivity|].
    right. repeat split.
  - split; [exact Hs2|]. split; [exact Hc2|]. split; [exact He2|]. split; [exact Ho2|].
    rewrite Hk2. destruct (COMMIT_CACHE_KV (env w)); [left; reflexivity|].
    destruct (DEV_PORTAL_CACHE w); [left; reflexivity|].
    right. repeat split.
  - intros cache Hcache. split; apply Hworld; try assumption.
    + rewrite Hk1, Hcache. destruct (UNITY_STATUS_KV (env w)); reflexivity.
    + rewrite Hk2, Hcache. destruct (COMMIT_CACHE_KV (env w)); reflexivity.
  - intros Hbound. apply Hworld; try assumption.
    rewrite Hk1. destruct (UNITY_STATUS_KV (env w)); [reflexivity | contradiction].
  - intros Hbound. apply Hworld; try assumption.
    rewrite Hk2. destruct (COMMIT_CACHE_KV (env w)); [reflexivity | contradiction].
Qed.

Lemma get_creates_only_the_empty_cache :
  DEV_PORTAL_CACHE (fst (get_api_unity_status local_dev))
  = Some {| unityStatus := None; latestCommit := None |}
  /\ fst (get_api_unity_status deployed) = deployed
  /\ fst (get_api_latest_commit deployed) = deployed.
Proof.
  split; [|split].
  - destruct (get_routes_change_nothing local_dev)
      as ((_ & _ & _ & _ & [Hsame | (_ & _ & Hnew)]) & _).
    + discriminate Hsame.
    + exact Hnew.
  - apply (get_routes_change_nothing deployed). discriminate.
  - apply (get_routes_change_nothing deployed). discriminate.
Defined.

(** A request that is answered with an HTTP exception is answered with
    status 400 and has changed nothing at all. *)
Theorem rejected_requests_change_nothing amb r w status message :
  snd (route amb r w) = Threw (HTTPException status message) ->
  status = 400 /\ fst (route amb r w) = w.
Proof.
  destruct r as [|payload| |payload|body]; unfold route, bind.
  - unfold get_api_unity_status.
    destruct (read_unity_status_held w) as (w' & -> & _). discriminate.
  - destruct (valid payload) eqn:Hvalid.
    + destruct (post_api_unity_status_held amb payload w Hvalid) as (w' & -> & _).
      discriminate.
    + rewrite (post_api_unity_status_invalid amb payload w Hvalid). cbn.
      intros [= <- _]. auto.
  - destruct (get_api_latest_commit_held w) as (w' & -> & _). discriminate.
  - destruct (payload ≫= GitHubWebhookPayload.head_commit) as [head_commit|] eqn:Hhead.
    + destruct payload as [p|]; [|discriminate Hhead]. cbn in Hhead.
      destruct (post_api_github_webhook_held amb p head_commit w Hhead) as (w' & -> & _).
      discriminate.
    + rewrite (post_api_github_webhook_missing amb payload w Hhead). cbn.
      intros [= <- _]. auto.
  - unfold post_api_trigger_notification.
    destruct body as [b|]; [|cbn; intros [= <- _]; auto].
    destruct (negb (Js.truthy (NotificationBody.channel b))
              || negb (Js.truthy (NotificationBody.message b)));
      [cbn; intros [= <- _]; auto|].
    unfold bind, fetch_post, ret.
    destruct (Js.truthy (N8N_WEBHOOK_URL (env w))); [|discriminate].
    destruct (fetch amb _); discriminate.
Qed.

Lemma rejected_push_changes_nothing :
  400 = 400
  /\ fst (route (at_time 60000) (PostGithubWebhook None) deployed) = deployed.
Proof.
  apply (rejected_requests_change_nothing (at_time 60000) (PostGithubWebhook None) deployed
           400 "Missing head_commit in GitHub payload").
  reflexivity.
Defined.

(** Only the notification relay calls out, at most once per request and
    to the configured URL with the body it received; it leaves the status
    and the commit that are served as they were.  No other route sends
    anything. *)
Theorem only_the_relay_calls_out amb r w :
  match r with
  | PostTriggerNotification body =>
      served_status (fst (route amb r w)) = served_status w
      /\ served_commit (fst (route amb r w)) = served_commit w
      /\ (outbound (fst (route amb r w)) = outbound w
          \/ exists request,
              outbound (fst (route amb r w)) = request :: outbound w
              /\ N8N_WEBHOOK_URL (env w) = Some (request_url request)
              /\ request_method request = "POST"
              /\ Some (request_body request) = body)
  | _ => outbound (fst (route amb r w)) = outbound w
  end.
Proof.
  destruct r as [|payload| |payload|body].
  - rewrite route_world. apply get_routes_frame.
  - rewrite route_world. destruct (valid payload) eqn:Hvalid.
    + destruct (post_api_unity_status_held amb payload w Hvalid)
        as (w' & -> & _ & _ & _ & Ho). exact Ho.
    + rewrite (post_api_unity_status_invalid amb payload w Hvalid). reflexivity.
  - rewrite route_world. apply get_routes_frame.
  - rewrite route_world.
    destruct (payload ≫= GitHubWebhookPayload.head_commit) as [head_commit|] eqn:Hhead.
    + destruct payload as [p|]; [|discriminate Hhead]. cbn in Hhead.
      destruct (post_api_github_webhook_held amb p head_commit w Hhead)
        as (w' & -> & _ & _ & _ & Ho). exact Ho.
    + rewrite (post_api_github_webhook_missing amb payload w Hhead). reflexivity.
  - rewrite !served_status_held, !served_commit_held.
    destruct (route_held amb (PostTriggerNotification body) w) as [-> ->].
    split; [reflexivity|]. split; [reflexivity|].
    rewrite route_world. unfold post_api_trigger_notification.
    destruct body as [b|]; [|cbn; auto].
    destruct (negb (Js.truthy (NotificationBody.channel b))
              || negb (Js.truthy (NotificationBody.message b))); [cbn; auto|].
    unfold bind, fetch_post, ret.
    destruct (N8N_WEBHOOK_URL (env w)) as [[|c url]|] eqn:Hurl; cbn; auto.
    right. eexists. split; [destruct (fetch amb _); reflexivity|].
    cbn. auto.
Qed.

End ServerProperties.

Section ServerInvariants.
Import Worker Scenario Server.

Lemma forallb_firstn {A : Type} (f : A -> bool) n (l : list A) :
  forallb f l = true -> forallb f (firstn n l) = true.
Proof.
  revert l. induction n as [|n IH]; intros [|x l]; cbn; try reflexivity.
  intros H. apply andb_prop in H as [Hx Hl]. rewrite Hx. cbn. apply IH. exact Hl.
Qed.

(** A valid update merged into a sound record gives a sound record. *)
Lemma sound_merge amb previous update :
  valid update = true ->
  sound previous = true ->
  sound (mergeUnityStatus amb previous update) = true.
Proof.
  unfold sound. intros Hvalid Hprev.
  apply andb_prop in Hprev as [Hprev Hentries].
  apply andb_prop in Hprev as [Hprev _].
  apply andb_prop in Hprev as [_ Hlen].
  apply Nat.leb_le in Hlen.
  rewrite merge_state, merge_lastUpdated.
  unfold valid in Hvalid. rewrite Hvalid. cbn [andb is_date toISOString getTime].
  rewrite andb_true_r.
  apply andb_true_intro. split.
  - apply Nat.leb_le. apply merge_history_bounded. exact Hlen.
  - destruct (heartbeat update) eqn:Hb.
    + rewrite merge_history_heartbeat by exact Hb. exact Hentries.
    + rewrite merge_history_event by exact Hb.
      apply forallb_firstn. cbn [forallb historyEntry UnityActivity.state
        UnityActivity.timestamp toISOString is_date getTime].
      rewrite merge_state, Hvalid, Hentries. reflexivity.
Qed.

Lemma sound_default : sound defaultUnityStatus = true.
Proof. reflexivity. Qed.

Lemma served_status_after amb r w :
  served_status (fst (route amb r w))
  = match r with
    | PostUnityStatus payload =>
        if valid payload then mergeUnityStatus amb (served_status w) payload
        else served_status w
    | _ => served_status w
    end.
Proof.
  rewrite !served_status_held.
  destruct (route_held amb r w) as [-> _].
  destruct r as [|payload| |payload|body]; try reflexivity.
  destruct (valid payload); [|reflexivity].
  rewrite served_status_held. reflexivity.
Qed.

(** The default record is a sound record, and whatever requests arrive, in
    whatever order and whatever they carry, a worker that serves a sound
    status record goes on serving one: an allowed state, at most ten
    history entries, and a readable date on the record and on each
    entry. *)
Theorem served_status_stays_sound steps w :
  sound defaultUnityStatus = true
  /\ (sound (served_status w) = true ->
      sound (served_status (serve steps w)) = true).
Proof.
  split; [reflexivity|].
  revert w. induction steps as [|[amb r] rest IH]; intros w Hsound; [exact Hsound|].
  cbn [serve]. apply IH. rewrite served_status_after.
  destruct r as [|payload| |payload|body]; try exact Hsound.
  destruct (valid payload) eqn:Hvalid; [|exact Hsound].
  apply sound_merge; assumption.
Qed.

Lemma busy_day_stays_sound :
  sound defaultUnityStatus = true
  /\ served_status deployed = defaultUnityStatus
  /\ sound (served_status (serve busy_day deployed)) = true.
Proof.
  destruct (served_status_stays_sound busy_day deployed) as [Hdefault Hkept].
  split; [exact Hdefault|]. split; [reflexivity|].
  apply Hkept. reflexivity.
Defined.

Lemma event_entries_length_le s steps :
  (length (event_entries s steps) <= length steps)%nat.
Proof.
  revert s. induction steps as [|[amb update] rest IH]; intros s; cbn; [lia|].
  destruct (heartbeat update); cbn; specialize (IH (mergeUnityStatus amb s update)); lia.
Qed.

(** Over any run of updates, heartbeats and events mixed, valid or not,
    the history is the ten newest of the entries that the events built,
    newest first, followed by what was there before: a heartbeat neither
    adds nor evicts nor reorders. *)
Theorem history_over_mixed_updates s steps :
  (length (UnityStatus.history s) <= 10)%nat ->
  UnityStatus.history (merge_all s steps)
  = firstn 10 (rev (event_entries s steps) ++ UnityStatus.history s).
Proof.
  revert s. induction steps as [|[amb update] rest IH]; intros s Hlen.
  - cbn [merge_all event_entries rev app].
    symmetry. apply firstn_all2. exact Hlen.
  - cbn [merge_all event_entries].
    rewrite IH by (apply merge_history_bounded; exact Hlen).
    destruct (heartbeat update) eqn:Hb.
    + rewrite (merge_history_heartbeat _ _ _ Hb). reflexivity.
    + rewrite (merge_history_event _ _ _ Hb), merge_lastUpdated.
      cbn [rev]. rewrite firstn_app_firstn, <- app_assoc. reflexivity.
Qed.

Lemma history_over_ping_between_events :
  UnityStatus.history
    (merge_all first_write [(at_time 120000, ping); (at_time 180000, coding_fix_bug)])
  = firstn 10
      (rev (event_entries first_write
              [(at_time 120000, ping); (at_time 180000, coding_fix_bug)])
       ++ UnityStatus.history first_write).
Proof.
  apply (history_over_mixed_updates first_write
           [(at_time 120000, ping); (at_time 180000, coding_fix_bug)]).
  cbn. lia.
Defined.

End ServerInvariants.

(** ** Paths and routes of the dashboard *)

Section RoutingFacts.
Import Dashboard.

Lemma all_slashes_app a b :
  all_slashes (a +:+ b) = all_slashes a && all_slashes b.
Proof.
  induction a as [|c a IH]; [reflexivity|].
  change (String c a +:+ b) with (String c (a +:+ b)).
  cbn [all_slashes]. rewrite IH, andb_assoc. reflexivity.
Qed.

Lemma strip_all_slashes s :
  strip_trailing_slashes s = "" <-> all_slashes s = true.
Proof.
  destruct s as [|c s]; cbn; [split; reflexivity|].
  destruct (Ascii.eqb c "/" && all_slashes s); split; try reflexivity; discriminate.
Qed.

Lemma strip_app_slash s :
  strip_trailing_slashes (s +:+ "/") = strip_trailing_slashes s.
Proof.
  induction s as [|c s IH]; [reflexivity|].
  change (String c s +:+ "/") with (String c (s +:+ "/")).
  cbn [strip_trailing_slashes all_slashes].
  rewrite all_slashes_app, IH.
  change (all_slashes "/") with true. rewrite andb_true_r. reflexivity.
Qed.

Lemma strip_idempotent s :
  strip_trailing_slashes (strip_trailing_slashes s) = strip_trailing_slashes s.
Proof.
  induction s as [|c s IH]; [reflexivity|].
  cbn [strip_trailing_slashes].
  destruct (all_slashes (String c s)) eqn:Hall; [reflexivity|].
  cbn [strip_trailing_slashes].
  destruct (all_slashes (String c (strip_trailing_slashes s))) eqn:Hall'.
  - exfalso. cbn in Hall, Hall'.
    apply andb_prop in Hall' as [Hc Hs].
    rewrite Hc in Hall. cbn in Hall.
    destruct (strip_trailing_slashes s) eqn:Hstrip.
    + apply strip_all_slashes in Hstrip. congruence.
    + rewrite <- Hstrip in Hs. rewrite <- IH in Hstrip.
      assert (Hempty : strip_trailing_slashes (strip_trailing_slashes s) = "")
        by (apply strip_all_slashes; exact Hs).
      congruence.
  - rewrite IH. reflexivity.
Qed.

Lemma strip_no_trailing_slash s :
  last_char (strip_trailing_slashes s) <> Some "/"%char.
Proof.
  induction s as [|c s IH]; [discriminate|].
  cbn [strip_trailing_slashes].
  destruct (all_slashes (String c s)) eqn:Hall; [discriminate|].
  destruct (strip_trailing_slashes s) as [|c' t] eqn:Hstrip.
  - cbn. intros [= ->].
    apply strip_all_slashes in Hstrip. cbn in Hall. rewrite Hstrip in Hall. discriminate.
  - exact IH.
Qed.

Lemma normalizePathname_cases p :
  normalizePathname p = "/"
  \/ (normalizePathname p = strip_trailing_slashes p /\ strip_trailing_slashes p <> "").
Proof.
  unfold normalizePathname. destruct p as [|c p]; [left; reflexivity|].
  destruct (String.eqb (strip_trailing_slashes (String c p)) "") eqn:Hempty;
    [left; reflexivity|].
  right. split; [reflexivity|]. apply String.eqb_neq. exact Hempty.
Qed.

Lemma normalize_canonical_form p :
  normalizePathname (normalizePathname p) = normalizePathname p
  /\ (normalizePathname p = "/"
      \/ (normalizePathname p <> "" /\ last_char (normalizePathname p) <> Some "/"%char)).
Proof.
  destruct (normalizePathname_cases p) as [Hroot | [Hstrip Hne]].
  - rewrite Hroot. split; [reflexivity | left; reflexivity].
  - rewrite Hstrip. split.
    + unfold normalizePathname.
      destruct (strip_trailing_slashes p) as [|c t] eqn:Hp; [congruence|].
      rewrite <- Hp, strip_idempotent, Hp. reflexivity.
    + right. split; [exact Hne | apply strip_no_trailing_slash].
Qed.

(** [normalizePathname] gives a canonical form: normalising twice is
    normalising once, and the result is "/" or a non-empty path that does
    not end in a slash. *)
Theorem normalizePathname_canonical p :
  normalizePathname (normalizePathname p) = normalizePathname p
  /\ (normalizePathname p = "/"
      \/ (normalizePathname p <> "" /\ last_char (normalizePathname p) <> Some "/"%char)).
Proof. exact (normalize_canonical_form p). Qed.

Lemma append_assoc (a b c : string) : (a +:+ b) +:+ c = a +:+ (b +:+ c).
Proof.
  induction a as [|x a IH]; [reflexivity|].
  change ((String x a +:+ b) +:+ c) with (String x ((a +:+ b) +:+ c)).
  rewrite IH. reflexivity.
Qed.

Lemma slashes_snoc n : slashes (S n) = slashes n +:+ "/".
Proof.
  induction n as [|n IH]; [reflexivity|].
  change (String "/" (slashes (S n)) = String "/" (slashes n +:+ "/")).
  f_equal. exact IH.
Qed.

Lemma normalize_app_slash p : normalizePathname (p +:+ "/") = normalizePathname p.
Proof.
  destruct p as [|c p]; [reflexivity|].
  change (String c p +:+ "/") with (String c (p +:+ "/")).
  unfold normalizePathname.
  change (String c (p +:+ "/")) with (String c p +:+ "/").
  rewrite strip_app_slash. reflexivity.
Qed.

(** Slashes at the end of a path, however many, never change how it is
    normalised nor the route it stands for. *)
Theorem trailing_slashes_do_not_matter p n :
  normalizePathname (p +:+ slashes n) = normalizePathname p
  /\ routeFromPathname (p +:+ slashes n) = routeFromPathname p.
Proof.
  assert (Hnorm : normalizePathname (p +:+ slashes n) = normalizePathname p).
  { induction n as [|n IH].
    - f_equal. clear. induction p as [|c p IH]; [reflexivity|].
      change (String c p +:+ slashes 0) with (String c (p +:+ slashes 0)).
      rewrite IH. reflexivity.
    - rewrite slashes_snoc, <- append_assoc, normalize_app_slash. exact IH. }
  split; [exact Hnorm|]. unfold routeFromPathname. rewrite Hnorm. reflexivity.
Qed.

(** Each route is found again from its own path, and its path is already
    in canonical form; a path that stands for no route is the overview. *)
Theorem routes_round_trip r p :
  routeFromPathname (pathnameFromRoute r) = r
  /\ normalizePathname (pathnameFromRoute r) = pathnameFromRoute r
  /\ (normalizePathname p <> "/forum" ->
      normalizePathname p <> "/store" ->
      normalizePathname p <> "/admin" ->
      routeFromPathname p = overview).
Proof.
  split; [destruct r; reflexivity|]. split; [destruct r; reflexivity|].
  intros Hf Hs Ha. unfold routeFromPathname.
  apply String.eqb_neq in Hf, Hs, Ha. rewrite Hf, Hs, Ha. reflexivity.
Qed.

Lemma routes_round_trip_for_the_store :
  routeFromPathname (pathnameFromRoute store) = store
  /\ normalizePathname (pathnameFromRoute store) = pathnameFromRoute store
  /\ routeFromPathname "/blog/" = overview.
Proof.
  destruct (routes_round_trip store "/blog/") as (Hback & Hcanon & Hunknown).
  split; [exact Hback|]. split; [exact Hcanon|].
  apply Hunknown; discriminate.
Defined.

End RoutingFacts.

Section BrowserFacts.
Import Dashboard.

Lemma route_of_agree p r :
  normalizePathname p = pathnameFromRoute r -> routeFromPathname p = r.
Proof.
  intros H. unfold routeFromPathname. rewrite H. destruct r; reflexivity.
Qed.

Lemma pathnameFromRoute_inj r1 r2 :
  pathnameFromRoute r1 = pathnameFromRoute r2 -> r1 = r2.
Proof. destruct r1, r2; cbn; intros H; try reflexivity; discriminate H. Qed.

Lemma normalize_route_path r : normalizePathname (pathnameFromRoute r) = pathnameFromRoute r.
Proof. destruct r; reflexivity. Qed.

Lemma mount_agrees path : agree (mount (load path)) /\ entries (mount (load path)) = [].
Proof.
  unfold agree, mount, load. cbn [pathname route entries].
  assert (Hroute : routeFromPathname (normalizePathname path) = routeFromPathname path).
  { unfold routeFromPathname.
    destruct (normalize_canonical_form path) as [-> _]. reflexivity. }
  rewrite Hroute.
  destruct (String.eqb (pathnameFromRoute (routeFromPathname path)) (normalizePathname path))
    eqn:Hcanon.
  - apply String.eqb_eq in Hcanon. cbn. auto.
  - cbn. split; [apply normalize_route_path | reflexivity].
Qed.

Lemma react_keeps_agreement e b :
  agree b -> Forall known (entries b) ->
  agree (react e b) /\ Forall known (entries (react e b)).
Proof.
  unfold agree. intros Hagree Hknown. destruct e as [to|]; cbn [react].
  - unfold navigate.
    destruct (String.eqb (normalizePathname (pathname b)) (pathnameFromRoute to)) eqn:Hsame.
    + apply String.eqb_eq in Hsame. cbn. split; [exact Hsame | exact Hknown].
    + cbn. split; [apply normalize_route_path|].
      constructor; [|exact Hknown].
      unfold known. rewrite (route_of_agree _ _ Hagree). exact Hagree.
  - unfold back. destruct (entries b) as [|path older] eqn:Hentries.
    + split; [exact Hagree|]. rewrite Hentries. constructor.
    + inversion Hknown as [|? ? Hpath Holder]; subst. cbn.
      split; [exact Hpath | exact Holder].
Qed.

Lemma browse_keeps_agreement events b :
  agree b -> Forall known (entries b) ->
  agree (browse events b) /\ Forall known (entries (browse events b)).
Proof.
  revert b. induction events as [|e rest IH]; intros b Hagree Hknown; [auto|].
  cbn [browse]. destruct (react_keeps_agreement e b Hagree Hknown) as [Ha Hk].
  apply IH; assumption.
Qed.

Lemma browsing_agrees path events :
  normalizePathname (pathname (browse events (mount (load path))))
  = pathnameFromRoute (route (browse events (mount (load path))))
  /\ routeFromPathname (pathname (browse events (mount (load path))))
     = route (browse events (mount (load path))).
Proof.
  destruct (mount_agrees path) as [Hagree Hentries].
  destruct (browse_keeps_agreement events (mount (load path)) Hagree) as [Ha _].
  { rewrite Hentries. constructor. }
  split; [exact Ha | apply route_of_agree; exact Ha].
Qed.

(** After a page load at any path and any clicks on the navigation and
    the back button, the address bar and the view agree: the normalised
    path is the path of the route shown, and the route shown is the route
    of the path. *)
Theorem address_and_view_agree path events :
  normalizePathname (pathname (browse events (mount (load path))))
  = pathnameFromRoute (route (browse events (mount (load path))))
  /\ routeFromPathname (pathname (browse events (mount (load path))))
     = route (browse events (mount (load path))).
Proof. exact (browsing_agrees path events). Qed.

(** Navigating to the route already shown adds no history entry and
    leaves the address as it is; navigating to another route adds exactly
    one entry, and the back button then shows the earlier address and
    route again. *)
Theorem navigate_and_back path events to :
  (route (browse events (mount (load path))) = to ->
   entries (navigate to (browse events (mount (load path))))
   = entries (browse events (mount (load path)))
   /\ pathname (navigate to (browse events (mount (load path))))
      = pathname (browse events (mount (load path))))
  /\ (route (browse events (mount (load path))) <> to ->
      entries (navigate to (browse events (mount (load path))))
      = pathname (browse events (mount (load path)))
        :: entries (browse events (mount (load path)))
      /\ pathname (navigate to (browse events (mount (load path)))) = pathnameFromRoute to
      /\ pathname (back (navigate to (browse events (mount (load path)))))
         = pathname (browse events (mount (load path)))
      /\ route (back (navigate to (browse events (mount (load path)))))
         = route (browse events (mount (load path)))
      /\ entries (back (navigate to (browse events (mount (load path)))))
         = entries (browse events (mount (load path)))).
Proof.
  destruct (browsing_agrees path events) as [Hagree Hroute].
  set (b := browse events (mount (load path))) in *.
  unfold navigate. split.
  - intros <-. rewrite Hagree, String.eqb_refl. cbn. auto.
  - intros Hother.
    destruct (String.eqb (normalizePathname (pathname b)) (pathnameFromRoute to)) eqn:Hsame.
    + apply String.eqb_eq in Hsame. rewrite Hagree in Hsame.
      apply pathnameFromRoute_inj in Hsame. contradiction.
    + cbn. repeat split. exact Hroute.
Qed.

Lemma navigate_and_back_from_the_forum :
  (entries (navigate store (browse [Navigate forum] (mount (load "/store/"))))
   = pathname (browse [Navigate forum] (mount (load "/store/")))
     :: entries (browse [Navigate forum] (mount (load "/store/")))
   /\ pathname (navigate store (browse [Navigate forum] (mount (load "/store/")))) = "/store"
   /\ pathname (back (navigate store (browse [Navigate forum] (mount (load "/store/")))))
      = "/forum"
   /\ route (back (navigate store (browse [Navigate forum] (mount (load "/store/")))))
      = forum
   /\ entries (back (navigate store (browse [Navigate forum] (mount (load "/store/")))))
      = ["/store/"])
  /\ entries (navigate forum (browse [Navigate forum] (mount (load "/store/"))))
     = ["/store/"].
Proof.
  split.
  - apply (navigate_and_back "/store/" [Navigate forum] store). discriminate.
  - apply (navigate_and_back "/store/" [Navigate forum] forum). reflexivity.
Defined.

End BrowserFacts.

(** ** Relative times on the dashboard *)

Section RelativeTimeFacts.
Import ReactApp Dashboard.

Lemma Math_round_div_lt n d k :
  0 < d -> (Math_round_div n d < k <-> 2 * n < (2 * k - 1) * d).
Proof.
  intros Hd. unfold Math_round_div. split.
  - intros Hlt.
    destruct (Z_lt_ge_dec (2 * n) ((2 * k - 1) * d)) as [Hok|Hge]; [exact Hok|].
    exfalso. assert (k <= (2 * n + d) / (2 * d)); [|lia].
    apply Z.div_le_lower_bound; lia.
  - intros Hlt. apply Z.div_lt_upper_bound; lia.
Qed.

Lemma Math_round_div_ge n d k :
  0 < d -> (k <= Math_round_div n d <-> (2 * k - 1) * d <= 2 * n).
Proof.
  intros Hd. pose proof (Math_round_div_lt n d k Hd) as H. lia.
Qed.

Lemma relative_time_cases now updated :
  0 < updated ->
  (now - updated < 30000 ->
   formatRelativeTime now (toISOString updated) = "just now")
  /\ (30000 <= now - updated < 3570000 ->
      formatRelativeTime now (toISOString updated)
      = ago (Math_round_div (now - updated) 60000) "minute"
      /\ 1 <= Math_round_div (now - updated) 60000 <= 59)
  /\ (3570000 <= now - updated < 84570000 ->
      formatRelativeTime now (toISOString updated)
      = ago (Math_round_div (Math_round_div (now - updated) 60000) 60) "hour"
      /\ 1 <= Math_round_div (Math_round_div (now - updated) 60000) 60 <= 23)
  /\ (84570000 <= now - updated ->
      formatRelativeTime now (toISOString updated)
      = ago (Math_round_div (Math_round_div (Math_round_div (now - updated) 60000) 60) 24)
            "day"
      /\ 1 <= Math_round_div (Math_round_div (Math_round_div (now - updated) 60000) 60) 24).
Proof.
  intros Hpos. unfold formatRelativeTime, toISOString. cbn [getTime].
  assert (Hle : (updated <=? 0) = false) by (apply Z.leb_gt; exact Hpos).
  rewrite Hle. change (60 * 1000) with 60000.
  set (d := now - updated).
  set (minutes := Math_round_div d 60000).
  set (hours := Math_round_div minutes 60).
  set (days := Math_round_div hours 24).
  pose proof (Math_round_div_lt d 60000 1 eq_refl) as Hm1.
  pose proof (Math_round_div_lt d 60000 60 eq_refl) as Hm60.
  pose proof (Math_round_div_lt minutes 60 24 eq_refl) as Hh24.
  pose proof (Math_round_div_ge minutes 60 1 eq_refl) as Hh1.
  pose proof (Math_round_div_ge hours 24 1 eq_refl) as Hd1.
  pose proof (Math_round_div_lt d 60000 1410 eq_refl) as Hm1410.
  fold minutes in Hm1, Hm60, Hm1410. fold hours in Hh24, Hh1. fold days in Hd1.
  repeat split.
  - intros Hd. assert (Hlt : (minutes <? 1) = true) by (apply Z.ltb_lt; lia).
    rewrite Hlt. reflexivity.
  - assert (Hge : (minutes <? 1) = false) by (apply Z.ltb_ge; lia).
    assert (Hlt : (minutes <? 60) = true) by (apply Z.ltb_lt; lia).
    rewrite Hge, Hlt. reflexivity.
  - lia.
  - lia.
  - assert (Hge : (minutes <? 1) = false) by (apply Z.ltb_ge; lia).
    assert (Hge' : (minutes <? 60) = false) by (apply Z.ltb_ge; lia).
    assert (Hlt : (hours <? 24) = true) by (apply Z.ltb_lt; lia).
    rewrite Hge, Hge', Hlt. reflexivity.
  - lia.
  - lia.
  - assert (Hge : (minutes <? 1) = false) by (apply Z.ltb_ge; lia).
    assert (Hge' : (minutes <? 60) = false) by (apply Z.ltb_ge; lia).
    assert (Hge'' : (hours <? 24) = false) by (apply Z.ltb_ge; lia).
    rewrite Hge, Hge', Hge''. reflexivity.
  - lia.
Qed.

(** The text by elapsed time, for a date after the epoch: under half a
    minute "just now"; then whole minutes up to 59; from 59.5 minutes
    whole hours up to 23; from 23 hours 29.5 minutes whole days.  The
    count is the elapsed time rounded step by step and is never below 1. *)
Theorem relative_time_by_elapsed now updated :
  0 < updated ->
  (now - updated < 30000 ->
   formatRelativeTime now (toISOString updated) = "just now")
  /\ (30000 <= now - updated < 3570000 ->
      formatRelativeTime now (toISOString updated)
      = ago (Math_round_div (now - updated) 60000) "minute"
      /\ 1 <= Math_round_div (now - updated) 60000 <= 59)
  /\ (3570000 <= now - updated < 84570000 ->
      formatRelativeTime now (toISOString updated)
      = ago (Math_round_div (Math_round_div (now - updated) 60000) 60) "hour"
      /\ 1 <= Math_round_div (Math_round_div (now - updated) 60000) 60 <= 23)
  /\ (84570000 <= now - updated ->
      formatRelativeTime now (toISOString updated)
      = ago (Math_round_div (Math_round_div (Math_round_div (now - updated) 60000) 60) 24)
            "day"
      /\ 1 <= Math_round_div (Math_round_div (Math_round_div (now - updated) 60000) 60) 24).
Proof. exact (relative_time_cases now updated). Qed.

Lemma relative_time_of_a_write_at_one_minute :
  formatRelativeTime 80000 (toISOString 60000) = "just now"
  /\ formatRelativeTime 660000 (toISOString 60000) = "10 minutes ago"
  /\ formatRelativeTime 3630000 (toISOString 60000) = "1 hour ago"
  /\ formatRelativeTime 84630000 (toISOString 60000) = "1 day ago".
Proof.
  split; [|split; [|split]].
  - apply (relative_time_by_elapsed 80000 60000); lia.
  - apply (relative_time_by_elapsed 660000 60000); lia.
  - apply (relative_time_by_elapsed 3630000 60000); lia.
  - apply (relative_time_by_elapsed 84630000 60000); lia.
Defined.

(** The badge is computed once per status record ([useMemo] on
    [[unityStatus]], reading the clock at [memo]) while the relative time
    reads the clock at every render ([render], not before [memo]).  A badge
    that is stale stands beside a time of at least "10 minutes ago", or
    hours, or days, at every later render.  A badge that is not stale
    stands beside "just now" or at most "10 minutes ago" as long as the
    render comes less than 30 seconds after the badge was computed; on a
    render at 10 minutes 30 seconds after the record's date the badge of
    the record's own state stands beside "11 minutes ago". *)
Theorem badge_and_relative_time_agree memo render unityStatus t :
  UnityStatus.lastUpdated unityStatus = toISOString t ->
  0 < t ->
  memo <= render ->
  (stale memo unityStatus = true ->
   derivedUnityBadge memo unityStatus
   = unityActivityBadges offline +:+ " • last heartbeat >10m"
   /\ exists n unit,
       formatRelativeTime render (UnityStatus.lastUpdated unityStatus) = ago n unit
       /\ 1 <= n
       /\ (unit = "minute" /\ 10 <= n \/ unit = "hour" \/ unit = "day"))
  /\ (stale memo unityStatus = false ->
      render - memo < 30000 ->
      derivedUnityBadge memo unityStatus
      = unityActivityBadges (UnityStatus.state unityStatus)
      /\ (formatRelativeTime render (UnityStatus.lastUpdated unityStatus) = "just now"
          \/ exists n,
              1 <= n <= 10
              /\ formatRelativeTime render (UnityStatus.lastUpdated unityStatus)
                 = ago n "minute"))
  /\ (stale memo unityStatus = false ->
      render - t = 630000 ->
      derivedUnityBadge memo unityStatus
      = unityActivityBadges (UnityStatus.state unityStatus)
      /\ formatRelativeTime render (UnityStatus.lastUpdated unityStatus)
         = "11 minutes ago").
Proof.
  intros Hstamp Hpos Hlater.
  assert (Hstale : stale memo unityStatus = (600000 <? memo - t)).
  { unfold stale. rewrite Hstamp. reflexivity. }
  assert (Hfreshbadge : stale memo unityStatus = false ->
                        derivedUnityBadge memo unityStatus
                        = unityActivityBadges (UnityStatus.state unityStatus)).
  { intros Hfresh. unfold derivedUnityBadge, baseState. rewrite Hfresh.
    destruct (UnityStatus.state unityStatus); reflexivity. }
  rewrite Hstamp.
  destruct (relative_time_cases render t Hpos) as (Hnow & Hmin & Hhour & Hday).
  pose proof (Math_round_div_lt (render - t) 60000 11 eq_refl) as H11.
  pose proof (Math_round_div_ge (render - t) 60000 10 eq_refl) as H10.
  split; [|split].
  - intros Hold. split.
    { unfold derivedUnityBadge, baseState. rewrite Hold. reflexivity. }
    rewrite Hstale in Hold. apply Z.ltb_lt in Hold.
    destruct (Z_lt_ge_dec (render - t) 3570000) as [Hminutes|Hmore].
    + destruct Hmin as [Heq Hrange]; [lia|].
      exists (Math_round_div (render - t) 60000), "minute".
      split; [exact Heq|]. split; [lia|]. left. split; [reflexivity | lia].
    + destruct (Z_lt_ge_dec (render - t) 84570000) as [Hhours|Hdays].
      * destruct Hhour as [Heq Hrange]; [lia|].
        eexists _, "hour". split; [exact Heq|]. split; [lia|]. right. left. reflexivity.
      * destruct Hday as [Heq Hrange]; [lia|].
        eexists _, "day". split; [exact Heq|]. split; [lia|]. right. right. reflexivity.
  - intros Hfresh Hsoon. split; [exact (Hfreshbadge Hfresh)|].
    rewrite Hstale in Hfresh. apply Z.ltb_ge in Hfresh.
    destruct (Z_lt_ge_dec (render - t) 30000) as [Hjust|Hminutes].
    + left. apply Hnow. exact Hjust.
    + right. destruct Hmin as [Heq Hrange]; [lia|].
      exists (Math_round_div (render - t) 60000). split; [lia | exact Heq].
  - intros Hfresh Hgap. split; [exact (Hfreshbadge Hfresh)|].
    destruct Hmin as [Heq _]; [lia|].
    rewrite Heq, Hgap. reflexivity.
Qed.

Lemma working_badge_beside_eleven_minutes_ago :
  (derivedUnityBadge 660000 (working_since (toISOString 60000))
   = unityActivityBadges working
   /\ formatRelativeTime 690000
        (UnityStatus.lastUpdated (working_since (toISOString 60000)))
      = "11 minutes ago")
  /\ (derivedUnityBadge 660001 (working_since (toISOString 60000))
      = unityActivityBadges offline +:+ " • last heartbeat >10m"
      /\ exists n unit,
          formatRelativeTime 660001
            (UnityStatus.lastUpdated (working_since (toISOString 60000)))
          = ago n unit
          /\ 1 <= n
          /\ (unit = "minute" /\ 10 <= n \/ unit = "hour" \/ unit = "day")).
Proof.
  split.
  - apply (badge_and_relative_time_agree
             660000 690000 (working_since (toISOString 60000)) 60000);
      [reflexivity | lia | lia | reflexivity | reflexivity].
  - apply (badge_and_relative_time_agree
             660001 660001 (working_since (toISOString 60000)) 60000);
      [reflexivity | lia | lia | reflexivity].
Defined.

End RelativeTimeFacts.

(** ** From the worker to the dashboard *)

Section WireFacts.
Import Worker Scenario Server.

Lemma decode_state_valid s :
  allowedUnityStateSet_has s = true -> exists st, Wire.decode_state s = Some st.
Proof.
  unfold allowedUnityStateSet_has, allowedUnityStates, Wire.decode_state. cbn [existsb].
  destruct (String.eqb s "working"); [eauto|].
  destruct (String.eqb s "break"); [eauto|].
  destruct (String.eqb s "offline"); [eauto|].
  discriminate.
Qed.

Lemma decode_history_sound h :
  forallb (fun entry =>
             allowedUnityStateSet_has (UnityActivity.state entry)
             && is_date (UnityActivity.timestamp entry)) h = true ->
  exists h', Wire.decode_history h = Some h'.
Proof.
  induction h as [|e rest IH]; cbn [forallb Wire.decode_history]; [eauto|].
  intros H. apply andb_prop in H as [He Hrest].
  apply andb_prop in He as [He _].
  destruct (decode_state_valid _ He) as [st Hst].
  destruct (IH Hrest) as [rest' ->].
  unfold Wire.decode_entry. rewrite Hst. eauto.
Qed.

(** A sound record of the worker is a record of the dashboard's type,
    with the same date and the state its string names. *)
Lemma decode_status_sound u :
  sound u = true ->
  exists status,
    Wire.decode_status u = Some status
    /\ Wire.decode_state (UnityStatus.state u) = Some (ReactApp.UnityStatus.state status)
    /\ ReactApp.UnityStatus.lastUpdated status = UnityStatus.lastUpdated u.
Proof.
  unfold sound. intros H.
  apply andb_prop in H as [H Hentries].
  apply andb_prop in H as [H _].
  apply andb_prop in H as [Hstate _].
  destruct (decode_state_valid _ Hstate) as [st Hst].
  destruct (decode_history_sound _ Hentries) as [h' Hh].
  unfold Wire.decode_status. rewrite Hst, Hh. eexists. repeat split.
Qed.

(** From an accepted update to the badge: after the worker has accepted
    an update, a dashboard that polls it draws the state of the update
    for as long as the worker's clock reading of the merge is at most ten
    minutes behind the dashboard's, and "offline" with the heartbeat note
    from then on. *)
Theorem accepted_update_reaches_the_badge amb payload w now shown :
  valid payload = true ->
  sound (served_status w) = true ->
  exists st polled,
    Wire.decode_state (UnityStatusUpdate.state payload) = Some st
    /\ Wire.poll (fst (post_api_unity_status amb payload w)) shown = Some polled
    /\ ReactApp.UnityStatus.state polled = st
    /\ ReactApp.derivedUnityBadge now polled
       = if 10 * 60 * 1000 <? now - new_Date amb
         then ReactApp.unityActivityBadges ReactApp.offline +:+ " • last heartbeat >10m"
         else ReactApp.unityActivityBadges st.
Proof.
  intros Hvalid Hsound.
  destruct (post_api_unity_status_held amb payload w Hvalid) as (w' & Hpost & Hheld & _).
  pose proof (sound_merge amb (served_status w) payload Hvalid Hsound) as Hmerged.
  destruct (decode_status_sound _ Hmerged) as (polled & Hdecode & Hstate & Hstamp).
  rewrite merge_state in Hstate. rewrite merge_lastUpdated in Hstamp.
  exists (ReactApp.UnityStatus.state polled), polled.
  split; [exact Hstate|]. split.
  - unfold Wire.poll. rewrite Hpost. cbn [fst].
    pose proof (served_status_held w') as Hserved.
    unfold served_status in Hserved. rewrite Hheld in Hserved.
    destruct (snd (get_api_unity_status w')) as [stored|e] eqn:Hget.
    + cbn [Js.nullish] in Hserved. subst stored. rewrite Hdecode. reflexivity.
    + exfalso. unfold get_api_unity_status in Hget.
      destruct (read_unity_status_held w') as (w'' & Hread & _).
      rewrite Hread in Hget. discriminate Hget.
  - split; [reflexivity|].
    assert (Hs : ReactApp.stale now polled = (10 * 60 * 1000 <? now - new_Date amb)).
    { unfold ReactApp.stale. rewrite Hstamp. reflexivity. }
    unfold ReactApp.derivedUnityBadge, ReactApp.baseState. rewrite Hs.
    destruct (10 * 60 * 1000 <? now - new_Date amb); [reflexivity|].
    destruct (ReactApp.UnityStatus.state polled); reflexivity.
Qed.

Lemma fix_bug_reaches_the_badge :
  exists st polled,
    Wire.decode_state (UnityStatusUpdate.state fix_bug) = Some st
    /\ Wire.poll (fst (post_api_unity_status (at_time 60000) fix_bug deployed))
                 ReactApp.fallbackUnityStatus = Some polled
    /\ ReactApp.UnityStatus.state polled = st
    /\ ReactApp.derivedUnityBadge 360000 polled
       = if 10 * 60 * 1000 <? 360000 - new_Date (at_time 60000)
         then ReactApp.unityActivityBadges ReactApp.offline +:+ " • last heartbeat >10m"
         else ReactApp.unityActivityBadges st.
Proof.
  apply (accepted_update_reaches_the_badge (at_time 60000) fix_bug deployed 360000
           ReactApp.fallbackUnityStatus); reflexivity.
Defined.

(** A worker that has never accepted an update serves the default
    record, and the dashboard that polls it draws "offline" (with the
    heartbeat note once its clock is more than ten minutes past the
    epoch) and writes "No activity tracked yet" for the time. *)
Theorem untouched_worker_on_the_dashboard w now shown :
  served_status w = defaultUnityStatus ->
  exists polled,
    Wire.poll w shown = Some polled
    /\ ReactApp.baseState now polled = ReactApp.offline
    /\ ReactApp.derivedUnityBadge now polled
       = (if 10 * 60 * 1000 <? now
          then ReactApp.unityActivityBadges ReactApp.offline +:+ " • last heartbeat >10m"
          else ReactApp.unityActivityBadges ReactApp.offline)
    /\ Dashboard.formatRelativeTime now (ReactApp.UnityStatus.lastUpdated polled)
       = "No activity tracked yet".
Proof.
  intros Hdefault. unfold Wire.poll. unfold served_status in Hdefault.
  destruct (snd (get_api_unity_status w)) as [stored|e] eqn:Hget.
  - subst stored. eexists. split; [reflexivity|].
    unfold ReactApp.derivedUnityBadge, ReactApp.baseState, ReactApp.stale.
    cbn [Wire.decode_status Dashboard.fetchUnityStatus ReactApp.UnityStatus.lastUpdated
         ReactApp.UnityStatus.state].
    cbn. rewrite Z.sub_0_r.
    destruct (10 * 60 * 1000 <? now); repeat split.
  - exfalso. unfold get_api_unity_status in Hget.
    destruct (read_unity_status_held w) as (w' & Hread & _).
    rewrite Hread in Hget. discriminate Hget.
Qed.

Lemma local_dev_on_the_dashboard :
  exists polled,
    Wire.poll local_dev ReactApp.fallbackUnityStatus = Some polled
    /\ ReactApp.baseState 1700000000000 polled = ReactApp.offline
    /\ ReactApp.derivedUnityBadge 1700000000000 polled
       = (if 10 * 60 * 1000 <? 1700000000000
          then ReactApp.unityActivityBadges ReactApp.offline +:+ " • last heartbeat >10m"
          else ReactApp.unityActivityBadges ReactApp.offline)
    /\ Dashboard.formatRelativeTime 1700000000000 (ReactApp.UnityStatus.lastUpdated polled)
       = "No activity tracked yet".
Proof.
  apply (untouched_worker_on_the_dashboard local_dev 1700000000000
           ReactApp.fallbackUnityStatus).
  reflexivity.
Defined.

(** The demo button, end to end: the body the dashboard posts always
    passes the relay's validation, and what the dashboard then shows is
    [delivered] with [forwardedToAutomation] as the webhook answered, or
    [delivered] alone when no URL is configured; when the worker's own
    call to the webhook is rejected the dashboard shows nothing delivered
    at all. *)
Theorem demo_notification_end_to_end amb w :
  Dashboard.triggerDemoNotification
    (Wire.respond (snd (post_api_trigger_notification amb
                          (Some Dashboard.demoNotification) w)))
  = if Js.truthy (N8N_WEBHOOK_URL (env w)) then
      match fetch amb (Js.nullish (N8N_WEBHOOK_URL (env w)) "") with
      | Responded ok => {| delivered := true; forwardedToAutomation := ok |}
      | Rejected => {| delivered := false; forwardedToAutomation := false |}
      end
    else {| delivered := true; forwardedToAutomation := false |}.
Proof.
  unfold post_api_trigger_notification.
  cbn [Dashboard.demoNotification NotificationBody.channel NotificationBody.message
       Js.truthy negb orb].
  unfold bind, fetch_post, ret.
  destruct (Js.truthy (N8N_WEBHOOK_URL (env w))); [|reflexivity].
  destruct (fetch amb _); reflexivity.
Qed.

End WireFacts.

(** ** The push route and the relay, for every input *)

Section WebhookFacts.
Import Worker Scenario.

Lemma replace_indexOf pat rep s :
  Js.replace pat rep s
  = match JsString.indexOf pat s with
    | Some i => JsString.splice i (String.length pat) rep s
    | None => s
    end.
Proof.
  induction s as [|c s IH].
  - cbn [Js.replace JsString.indexOf].
    destruct (Js.starts_with pat ""); reflexivity.
  - cbn [Js.replace JsString.indexOf].
    destruct (Js.starts_with pat (String c s)); [reflexivity|].
    rewrite IH. destruct (JsString.indexOf pat s) as [i|]; reflexivity.
Qed.

(** The branch of a stored commit is the ref with its first occurrence
    of "refs/heads/" cut out, wherever in the ref it stands, and the whole
    ref when it has none; a push without a ref has no branch. *)
Theorem branch_is_ref_without_first_refs_heads amb p head_commit :
  LatestCommit.branch (normalize amb p head_commit)
  = match GitHubWebhookPayload.ref p with
    | Some ref =>
        match JsString.indexOf "refs/heads/" ref with
        | Some i => Some (JsString.take i ref +:+ Js.drop (i + 11) ref)
        | None => Some ref
        end
    | None => None
    end.
Proof.
  unfold normalize. cbn [LatestCommit.branch].
  destruct (GitHubWebhookPayload.ref p) as [ref|]; [|reflexivity].
  cbn [fmap option_fmap option_map]. rewrite replace_indexOf.
  destruct (JsString.indexOf "refs/heads/" ref) as [i|]; reflexivity.
Qed.

(** The relay answers its 400 exception exactly when the body is null or
    its channel or its message is missing or the empty string; the title
    plays no part. *)
Theorem relay_rejects_exactly_incomplete_bodies amb body w :
  snd (post_api_trigger_notification amb body w)
  = Threw (HTTPException 400 "channel and message are required")
  <-> Js.truthy (body ≫= NotificationBody.channel) = false
      \/ Js.truthy (body ≫= NotificationBody.message) = false.
Proof.
  unfold post_api_trigger_notification.
  destruct body as [b|]; cbn [mbind option_bind]; [|split; [left|]; reflexivity].
  destruct (Js.truthy (NotificationBody.channel b)) eqn:Hc;
    destruct (Js.truthy (NotificationBody.message b)) eqn:Hm; cbn [negb orb];
    try (split; [intros _; auto | reflexivity]).
  split; [|intros [H|H]; discriminate H].
  unfold bind, fetch_post, ret.
  destruct (Js.truthy (N8N_WEBHOOK_URL (env w))); [|discriminate].
  destruct (fetch amb _); discriminate.
Qed.

End WebhookFacts.

(** ** The editor plugin: calendars *)

Section PluginCalendarFacts.
Import Plugin.

Lemma TicksPerDay_pos : 0 < TicksPerDay.
Proof. reflexivity. Qed.

(** The anchor is the start of the block of seven days, counted from
    day 0, that the time lies in. *)
Lemma GetWeekAnchor_value time :
  is_DateTime time ->
  GetWeekAnchor time = Some (7 * TicksPerDay * (time / (7 * TicksPerDay))).
Proof.
  intros [Hlo Hhi]. unfold GetWeekAnchor, DayOfWeek, Date, AddDays.
  pose proof TicksPerDay_pos as HD.
  set (D := TicksPerDay) in *.
  assert (Hdate : time - time mod D = D * (time / D))
    by (pose proof (Z.div_mod time D); lia).
  rewrite Hdate.
  assert (Hn : D * (time / D) / D = time / D)
    by (rewrite Z.mul_comm; apply Z.div_mul; lia).
  rewrite Hn.
  set (n := time / D).
  assert (Hn0 : 0 <= n) by (apply Z.div_pos; lia).
  assert (Hrem : Z.rem ((n + 1) mod 7 + 6) 7 = n mod 7).
  { rewrite Z.rem_mod_nonneg by (pose proof (Z.mod_pos_bound (n + 1) 7); lia).
    rewrite Z.add_mod_idemp_l by lia.
    replace (n + 1 + 6) with (n + 1 * 7) by lia.
    apply Z.mod_add. lia. }
  rewrite Hrem.
  assert (Hweek : time / (7 * D) = n / 7).
  { subst n. rewrite (Z.mul_comm 7 D). symmetry. apply Z.div_div; lia. }
  rewrite Hweek.
  assert (Hval : D * n + - (n mod 7) * D = 7 * D * (n / 7))
    by (pose proof (Z.div_mod n 7); nia).
  rewrite Hval.
  assert (Hk : 0 <= n / 7) by (apply Z.div_pos; lia).
  assert (Hle : 7 * D * (n / 7) <= time).
  { pose proof (Z.mod_pos_bound n 7). pose proof (Z.div_mod n 7).
    pose proof (Z.mod_pos_bound time D). pose proof (Z.div_mod time D).
    fold n in H2. nia. }
  assert (Hr1 : (0 <=? 7 * D * (n / 7)) = true) by (apply Z.leb_le; nia).
  assert (Hr2 : (7 * D * (n / 7) <=? MaxTicks) = true) by (apply Z.leb_le; lia).
  rewrite Hr1, Hr2. reflexivity.
Qed.

Lemma GetWeekAnchor_is_the_monday_aux time :
  is_DateTime time ->
  exists anchor,
    GetWeekAnchor time = Some anchor
    /\ is_DateTime anchor
    /\ DayOfWeek anchor = 1
    /\ Date anchor = anchor
    /\ anchor <= time < anchor + 7 * TicksPerDay
    /\ GetWeekAnchor anchor = Some anchor
    /\ (forall other,
         is_DateTime other ->
         (anchor <= other < anchor + 7 * TicksPerDay <-> GetWeekAnchor other = Some anchor)).
Proof.
  intros Htime. pose proof Htime as [Hlo Hhi].
  pose proof TicksPerDay_pos as HD.
  exists (7 * TicksPerDay * (time / (7 * TicksPerDay))).
  set (W := 7 * TicksPerDay) in *.
  assert (HW : 0 < W) by (unfold W; lia).
  set (k := time / W).
  assert (Hk : 0 <= k) by (apply Z.div_pos; lia).
  assert (Hbounds : W * k <= time < W * k + W).
  { pose proof (Z.div_mod time W). pose proof (Z.mod_pos_bound time W). fold k in H. lia. }
  assert (Hanchor : is_DateTime (W * k)) by (unfold is_DateTime; nia).
  assert (Hown : W * k / W = k) by (rewrite Z.mul_comm; apply Z.div_mul; lia).
  split; [apply GetWeekAnchor_value; exact Htime|].
  split; [exact Hanchor|].
  split.
  { unfold DayOfWeek. unfold W. 
    replace (7 * TicksPerDay * k / TicksPerDay) with (7 * k).
    - replace (7 * k + 1) with (1 + k * 7) by lia. rewrite Z.mod_add by lia. reflexivity.
    - replace (7 * TicksPerDay * k) with (7 * k * TicksPerDay) by lia.
      symmetry. apply Z.div_mul. lia. }
  split.
  { unfold Date. unfold W.
    replace (7 * TicksPerDay * k) with (7 * k * TicksPerDay) by lia.
    rewrite Z.mod_mul by lia. lia. }
  split; [lia|].
  split.
  { rewrite (GetWeekAnchor_value _ Hanchor). fold W. rewrite Hown. reflexivity. }
  intros other Hother. rewrite (GetWeekAnchor_value _ Hother). fold W.
  destruct Hother as [Holo Hohi].
  clear Hanchor Hown. unfold k, W, MaxTicks, TicksPerDay in *.
  pose proof (Z.div_mod other 6048000000000).
  pose proof (Z.mod_pos_bound other 6048000000000).
  change (7 * 864000000000) with 6048000000000 in *.
  split.
  - intros Hin. f_equal.
    assert (time / 6048000000000 = other / 6048000000000) as ->; [|reflexivity].
    apply Z.div_unique with (r := other - 6048000000000 * (time / 6048000000000)); lia.
  - intros [= Heq]. lia.
Qed.

(** For every [DateTime], [GetWeekAnchor] returns (it never throws): the
    anchor is a Monday at midnight, at or before the time and less than
    seven days before it; the anchor is its own anchor, and every time
    within the seven days from the anchor has the same anchor. *)
Theorem GetWeekAnchor_is_the_monday time :
  is_DateTime time ->
  exists anchor,
    GetWeekAnchor time = Some anchor
    /\ is_DateTime anchor
    /\ DayOfWeek anchor = 1
    /\ Date anchor = anchor
    /\ anchor <= time < anchor + 7 * TicksPerDay
    /\ GetWeekAnchor anchor = Some anchor
    /\ (forall other,
         is_DateTime other ->
         (anchor <= other < anchor + 7 * TicksPerDay <-> GetWeekAnchor other = Some anchor)).
Proof. exact (GetWeekAnchor_is_the_monday_aux time). Qed.

Lemma the_monday_of_a_wednesday :
  exists anchor,
    GetWeekAnchor (monday_2024 + 2 * TicksPerDay + 36000000000) = Some anchor
    /\ is_DateTime anchor
    /\ DayOfWeek anchor = 1
    /\ Date anchor = anchor
    /\ anchor <= monday_2024 + 2 * TicksPerDay + 36000000000 < anchor + 7 * TicksPerDay
    /\ GetWeekAnchor anchor = Some anchor
    /\ (forall other,
         is_DateTime other ->
         (anchor <= other < anchor + 7 * TicksPerDay <-> GetWeekAnchor other = Some anchor)).
Proof.
  apply (GetWeekAnchor_is_the_monday (monday_2024 + 2 * TicksPerDay + 36000000000)).
  unfold is_DateTime, monday_2024, TicksPerDay, MaxTicks. lia.
Defined.

End PluginCalendarFacts.

Section PluginRollFacts.
Import Plugin.

Lemma GetWeekAnchor_of_Date time other :
  Date other = Date time -> GetWeekAnchor other = GetWeekAnchor time.
Proof. unfold GetWeekAnchor. intros ->. reflexivity. Qed.

Lemma roll_day_currentDay now t : currentDay (roll_day now t) = Date now.
Proof.
  unfold roll_day. destruct (Date now =? currentDay t) eqn:Hsame; [|reflexivity].
  apply Z.eqb_eq in Hsame. symmetry. exact Hsame.
Qed.

Lemma roll_week_anchor anchor t : currentWeekAnchor (roll_week anchor t) = anchor.
Proof.
  unfold roll_week. destruct (anchor =? currentWeekAnchor t) eqn:Hsame; [|reflexivity].
  apply Z.eqb_eq in Hsame. symmetry. exact Hsame.
Qed.

Lemma roll_week_currentDay anchor t : currentDay (roll_week anchor t) = currentDay t.
Proof. unfold roll_week. destruct (anchor =? currentWeekAnchor t); reflexivity. Qed.

(** [RollCalendars] returns for every [DateTime] and brings the tracker
    up to date: its day is the day of [now] and its week anchor the
    Monday of [now]; rolling again at any time of the same day changes
    nothing more. *)
Theorem RollCalendars_settles now t :
  is_DateTime now ->
  exists t',
    RollCalendars now t = Some t'
    /\ currentDay t' = Date now
    /\ GetWeekAnchor now = Some (currentWeekAnchor t')
    /\ (forall later, Date later = Date now -> RollCalendars later t' = Some t').
Proof.
  intros Hnow. unfold RollCalendars.
  destruct (GetWeekAnchor_is_the_monday_aux now Hnow) as (anchor & Hanchor & _).
  rewrite Hanchor. eexists. split; [reflexivity|].
  split; [rewrite roll_week_currentDay; apply roll_day_currentDay|].
  split; [rewrite roll_week_anchor; reflexivity|].
  intros later Hsame.
  rewrite (GetWeekAnchor_of_Date now later Hsame), Hanchor. f_equal.
  unfold roll_day at 1.
  rewrite roll_week_currentDay, roll_day_currentDay, Hsame, Z.eqb_refl.
  unfold roll_week at 1. rewrite roll_week_anchor, Z.eqb_refl. reflexivity.
Qed.

Lemma RollCalendars_at_work_on_tuesday :
  exists t',
    RollCalendars (monday_2024 + TicksPerDay + 36000000000) at_work = Some t'
    /\ currentDay t' = Date (monday_2024 + TicksPerDay + 36000000000)
    /\ GetWeekAnchor (monday_2024 + TicksPerDay + 36000000000)
       = Some (currentWeekAnchor t')
    /\ (forall later,
         Date later = Date (monday_2024 + TicksPerDay + 36000000000) ->
         RollCalendars later t' = Some t').
Proof.
  apply (RollCalendars_settles (monday_2024 + TicksPerDay + 36000000000) at_work).
  unfold is_DateTime, monday_2024, TicksPerDay, MaxTicks. lia.
Defined.

Lemma Date_is_DateTime now : is_DateTime now -> is_DateTime (Date now) /\ Date (Date now) = Date now.
Proof.
  intros [Hlo Hhi]. unfold is_DateTime, Date, MaxTicks, TicksPerDay in *.
  pose proof (Z.mod_pos_bound now 864000000000).
  pose proof (Z.div_mod now 864000000000).
  assert (Hmid : (now - now mod 864000000000) mod 864000000000 = 0).
  { replace (now - now mod 864000000000) with (now / 864000000000 * 864000000000) by lia.
    apply Z.mod_mul. lia. }
  rewrite Hmid. lia.
Qed.

(** [RollCalendars] keeps a consistent tracker consistent: afterwards the
    week anchor is again the Monday of the current day, and the seconds
    of today are still at most the seconds of the week, because a new
    week is always also a new day. *)
Theorem RollCalendars_keeps_today_within_week now t :
  is_DateTime now ->
  consistent t ->
  exists t', RollCalendars now t = Some t' /\ consistent t'.
Proof.
  intros Hnow (Hday & Hanchor & Hpos & Hle).
  destruct (Date_is_DateTime now Hnow) as [Hdate Hmid].
  destruct (GetWeekAnchor_is_the_monday_aux now Hnow) as (anchor & Hnew & _).
  unfold RollCalendars. rewrite Hnew. eexists. split; [reflexivity|].
  unfold consistent.
  rewrite roll_week_currentDay, roll_day_currentDay, roll_week_anchor.
  split; [exact Hdate|].
  split; [rewrite (GetWeekAnchor_of_Date now (Date now) Hmid); exact Hnew|].
  unfold roll_day, roll_week.
  destruct (Date now =? currentDay t) eqn:Hsame.
  - apply Z.eqb_eq in Hsame.
    assert (Heq : anchor = currentWeekAnchor t).
    { rewrite <- Hsame in Hanchor.
      rewrite (GetWeekAnchor_of_Date now (Date now) Hmid), Hnew in Hanchor.
      injection Hanchor as ->. reflexivity. }
    rewrite Heq, Z.eqb_refl. split; assumption.
  - cbn [currentWeekAnchor].
    destruct (anchor =? currentWeekAnchor t); cbn [todaySeconds weekSeconds].
    + split; [apply Qle_refl|]. apply Qle_trans with (todaySeconds t); assumption.
    + split; apply Qle_refl.
Qed.

Lemma at_work_stays_consistent :
  exists t',
    RollCalendars (monday_2024 + 8 * TicksPerDay) at_work = Some t' /\ consistent t'.
Proof.
  apply (RollCalendars_keeps_today_within_week (monday_2024 + 8 * TicksPerDay) at_work).
  - unfold is_DateTime, monday_2024, TicksPerDay, MaxTicks. lia.
  - unfold consistent. split; [|split; [|split]].
    + unfold is_DateTime. cbn. unfold monday_2024, MaxTicks. lia.
    + reflexivity.
    + discriminate.
    + discriminate.
Defined.

(** The streak counts days with half an hour of work, not the days in
    between: on the first roll to any other day, however far away and
    even if earlier, the seconds of today are reset and the streak is one
    more (as a 32-bit integer) when today had 1800 seconds or more, and 0
    otherwise; while the day is the same, neither changes. *)
Theorem streak_counts_days_not_gaps now t :
  is_DateTime now ->
  exists t',
    RollCalendars now t = Some t'
    /\ (Date now = currentDay t ->
        productiveStreak t' = productiveStreak t /\ todaySeconds t' = todaySeconds t)
    /\ (Date now <> currentDay t ->
        todaySeconds t' = 0%Q
        /\ productiveStreak t'
           = if Qle_bool 1800 (todaySeconds t) then int32 (productiveStreak t + 1) else 0).
Proof.
  intros Hnow.
  destruct (GetWeekAnchor_is_the_monday_aux now Hnow) as (anchor & Hnew & _).
  unfold RollCalendars. rewrite Hnew. eexists. split; [reflexivity|].
  unfold roll_day, roll_week. split.
  - intros Hsame. apply Z.eqb_eq in Hsame. rewrite Hsame.
    destruct (anchor =? currentWeekAnchor t); split; reflexivity.
  - intros Hother. apply Z.eqb_neq in Hother. rewrite Hother.
    cbn [currentWeekAnchor].
    destruct (anchor =? currentWeekAnchor t); split; reflexivity.
Qed.

Lemma streak_after_a_week_away :
  exists t',
    RollCalendars (monday_2024 + 8 * TicksPerDay) at_work = Some t'
    /\ todaySeconds t' = 0%Q
    /\ productiveStreak t' = 4.
Proof.
  destruct (streak_counts_days_not_gaps (monday_2024 + 8 * TicksPerDay) at_work)
    as (t' & Hroll & _ & Hnew).
  { unfold is_DateTime, monday_2024, TicksPerDay, MaxTicks. lia. }
  exists t'. split; [exact Hroll|]. apply Hnew. discriminate.
Defined.

End PluginRollFacts.

(** ** From the editor plugin to the worker *)

Section PluginWireFacts.
Import Worker Scenario Server.

Lemma plugin_state_is_allowed offline working :
  allowedUnityStateSet_has
    (if offline : bool then "offline" else if working : bool then "working" else "break")
  = true.
Proof. destruct offline, working; reflexivity. Qed.

(** [SendStatusUpdate] sends a body exactly when no request is in flight
    and the endpoint is not blank; the worker accepts every body it sends
    (the state is always one of the three allowed strings) and, since the
    body names every member, the record then served carries the plugin's
    state, task, activity and scene whatever was stored before.  A body
    sent as a heartbeat leaves the history as it was; any other adds one
    entry at the head, labelled with the plugin's activity and task. *)
Theorem plugin_updates_are_accepted ed offline heartbeat t amb w :
  (snd (Plugin.SendStatusUpdate ed offline heartbeat t) = None
   <-> Plugin.sendInFlight t = true
       \/ Plugin.IsNullOrWhiteSpace ed (Plugin.workerEndpoint t) = true)
  /\ (forall request,
       snd (Plugin.SendStatusUpdate ed offline heartbeat t) = Some request ->
       exists w' merged,
         post_api_unity_status amb (Plugin.to_wire request) w = (w', Returned merged)
         /\ served_status w' = merged
         /\ UnityStatus.state merged
            = (if offline then "offline"
               else if Plugin.isWorking t then "working" else "break")
         /\ UnityStatus.currentTask merged
            = (if Plugin.IsNullOrWhiteSpace ed (Plugin.currentTask t)
               then "Unspecified task" else Plugin.currentTask t)
         /\ UnityStatus.activityType merged = Plugin.ActivityType_ToString (Plugin.activity t)
         /\ UnityStatus.sceneName merged = Plugin.activeSceneName ed
         /\ UnityStatus.history merged
            = if heartbeat then UnityStatus.history (served_status w)
              else firstn 10
                     (historyEntry amb (UnityStatus.lastUpdated merged) merged
                      :: UnityStatus.history (served_status w))).
Proof.
  unfold Plugin.SendStatusUpdate. split.
  - destruct (Plugin.sendInFlight t); [split; auto|].
    destruct (Plugin.IsNullOrWhiteSpace ed (Plugin.workerEndpoint t)); [split; auto|].
    cbn [snd]. split; [discriminate | intros [H|H]; discriminate H].
  - intros request.
    destruct (Plugin.sendInFlight t); [discriminate|].
    destruct (Plugin.IsNullOrWhiteSpace ed (Plugin.workerEndpoint t)); [discriminate|].
    cbn [snd]. intros [= <-].
    set (request := Plugin.Build_UnityStatusRequest _ _ _ _ _ _ _ _ _ _).
    assert (Hvalid : valid (Plugin.to_wire request) = true)
      by apply plugin_state_is_allowed.
    destruct (post_api_unity_status_held amb (Plugin.to_wire request) w Hvalid)
      as (w' & Hpost & Hheld & _).
    exists w', (mergeUnityStatus amb (served_status w) (Plugin.to_wire request)).
    split; [exact Hpost|].
    split; [rewrite served_status_held, Hheld; reflexivity|].
    rewrite merge_state, merge_currentTask, merge_activityType.
    repeat (split; [reflexivity|]).
    split; [unfold mergeUnityStatus; destruct (negb _); reflexivity|].
    destruct heartbeat.
    + apply merge_history_heartbeat. reflexivity.
    + rewrite merge_lastUpdated. apply merge_history_event. reflexivity.
Qed.

Lemma plugin_heartbeat_reaches_deployed_worker :
  exists w' merged,
    post_api_unity_status (at_time 60000)
      (Plugin.to_wire
         {| Plugin.state := "working";
            Plugin.request_currentTask := "Fix bug";
            Plugin.activityType := "Coding";
            Plugin.sceneName := "Main";
            Plugin.unityVersion := "2022.3.10f1";
            Plugin.isPlayMode := false;
            Plugin.totalTodayHours := (2700 / 3600)%Q;
            Plugin.totalWeekHours := (2700 / 3600)%Q;
            Plugin.request_productiveStreak := 3;
            Plugin.isHeartbeat := true |}) deployed
    = (w', Returned merged)
    /\ served_status w' = merged
    /\ UnityStatus.state merged = "working"
    /\ UnityStatus.currentTask merged = "Fix bug"
    /\ UnityStatus.activityType merged = "Coding"
    /\ UnityStatus.sceneName merged = "Main"
    /\ UnityStatus.history merged = UnityStatus.history (served_status deployed).
Proof.
  destruct (plugin_updates_are_accepted (Plugin.editor_at Plugin.monday_2024) false true
              Plugin.at_work (at_time 60000) deployed) as [_ Hsent].
  apply Hsent. reflexivity.
Defined.

End PluginWireFacts.

(** ** Updates one after another, and updates that overlap *)

Section PostSequences.
Import Worker Scenario Server.

(** The route is its two stretches, one after the other. *)
Lemma post_api_unity_status_stretches amb payload w :
  post_api_unity_status amb payload w
  = (current <- post_unity_status_read payload ;;
     post_unity_status_write amb payload current) w.
Proof.
  unfold post_api_unity_status, post_unity_status_read, post_unity_status_write, bind.
  destruct (validateUnityPayload payload w) as [w1 [p|e]]; [|reflexivity].
  destruct (read_unity_status w1) as [w2 [current|e]]; reflexivity.
Qed.

(** A run of POSTs of a status, one after another, serves in the end the
    record that merging the accepted updates in order into the record
    served at the start gives; the rejected ones leave no trace. *)
Theorem posts_merge_in_order steps w :
  served_status (serve (posts steps) w) = merge_all (served_status w) (accepted steps).
Proof.
  revert w. induction steps as [|[amb payload] rest IH]; intros w; [reflexivity|].
  cbn [posts map serve fst snd]. fold (posts rest). rewrite IH.
  rewrite served_status_after. unfold accepted. cbn [List.filter snd].
  destruct (valid payload); reflexivity.
Qed.

(** When two POSTs of a status overlap (both have read before either
    writes) the one that writes last wins in full: the record served
    afterwards is the later writer's update merged into the record served
    before both, as if the other request had never been made; its state,
    its members and its history entry are gone, although it was answered
    with its own merged record. *)
Theorem overlapping_posts_lose_the_first ambA payloadA ambB payloadB w :
  valid payloadA = true ->
  valid payloadB = true ->
  post_api_unity_status ambA payloadA w
  = (current <- post_unity_status_read payloadA ;;
     post_unity_status_write ambA payloadA current) w
  /\ exists w',
      overlapping_posts ambA payloadA ambB payloadB w
      = (w', Returned (mergeUnityStatus ambA (served_status w) payloadA,
                       mergeUnityStatus ambB (served_status w) payloadB))
      /\ served_status w' = mergeUnityStatus ambB (served_status w) payloadB.
Proof.
  intros HA HB. split; [apply post_api_unity_status_stretches|].
  unfold valid in HA, HB.
  unfold overlapping_posts, post_unity_status_read, post_unity_status_write,
    validateUnityPayload.
  rewrite HA, HB. cbn [negb].
  destruct (read_unity_status_held w) as (w1 & Hr1 & _ & Hs1 & _).
  destruct (read_unity_status_held w1) as (w2 & Hr2 & _ & Hs2 & _).
  rewrite Hs1 in Hr2.
  destruct (write_unity_status_held
              (mergeUnityStatus ambA (Js.nullish (held_status w) defaultUnityStatus) payloadA)
              w2) as (w3 & Hw3 & _).
  destruct (write_unity_status_held
              (mergeUnityStatus ambB (Js.nullish (held_status w) defaultUnityStatus) payloadB)
              w3) as (w4 & Hw4 & Hs4 & _).
  exists w4. rewrite !served_status_held, Hs4. split; [|reflexivity].
  unfold bind at 1. unfold bind at 1. unfold ret at 1. rewrite Hr1.
  unfold bind at 1. unfold bind at 1. unfold ret at 1. rewrite Hr2.
  unfold bind at 1. unfold bind at 1. rewrite Hw3. unfold ret at 1.
  unfold bind at 1. unfold bind at 1. rewrite Hw4. reflexivity.
Qed.

Lemma overlapping_fix_bug_and_ping :
  post_api_unity_status (at_time 60000) coding_fix_bug deployed
  = (current <- post_unity_status_read coding_fix_bug ;;
     post_unity_status_write (at_time 60000) coding_fix_bug current) deployed
  /\ exists w',
    overlapping_posts (at_time 60000) coding_fix_bug (at_time 60001) ping deployed
    = (w', Returned (mergeUnityStatus (at_time 60000) (served_status deployed) coding_fix_bug,
                     mergeUnityStatus (at_time 60001) (served_status deployed) ping))
    /\ served_status w' = mergeUnityStatus (at_time 60001) (served_status deployed) ping.
Proof.
  apply (overlapping_posts_lose_the_first (at_time 60000) coding_fix_bug
           (at_time 60001) ping deployed); reflexivity.
Defined.

End PostSequences.
